(** * fdp_stats: the FEMU FDP statistics tool (scripts/fdp_stats.cc)

    A shallow embedding of [scripts/fdp_stats.cc].  The program is a single
    [main] that talks to the xNVMe library; the library and the device are
    not part of the repository, so every answer they give (handles, error
    codes, completion status, the bytes the device writes) is read from a
    [world] record, and every call the program makes is recorded, in program
    order, in a trace of [event]s together with everything it prints. *)

From stdpp Require Import base list strings pretty vector.
From Stdlib Require Import ZArith Lia HexadecimalString.
From Equations Require Import Equations.

Open Scope Z_scope.

(** ** Constants and data layout (lines 8-33) *)

Definition BUF_SIZE : Z := Z.shiftl 1 20.
Definition MAX_NR_QUEUE : Z := 128.

(** [enum NvmeIomsMo] *)
Definition NVME_IOMS_MO_NOP : Z := 0x0.
Definition NVME_IOMS_MO_RUH_UPDATE : Z := 0x1.
Definition NVME_IOMS_MO_SUNGJIN : Z := 0x2.
Definition NVME_IOMS_MO_SUNGJIN_READONLY : Z := 0x10.

(** Pointers are addresses; [nullptr] is address 0. *)
Definition ptr := Z.
Definition nullptr : ptr := 0.

Record nvme_fdp_ruh_status_desc := {
  pid : Z;              (* uint16_t *)
  ruhid : Z;            (* uint16_t *)
  earutr : Z;           (* uint32_t *)
  ruamw : Z;            (* uint64_t *)
  rsvd16 : list Z       (* uint8_t [16] *)
}.

Record nvme_fdp_ruh_status := {
  rsvd0 : list Z;                          (* uint8_t [14] *)
  nruhsd : Z;                              (* uint16_t *)
  ruhss : vec nvme_fdp_ruh_status_desc 16  (* [16] *)
}.

(** Number of slots of [ruhss], and [sizeof] of the two structs. *)
Definition RUHSS_LEN : Z := 16.
Definition sizeof_ruh_status_desc : Z := 2 + 2 + 4 + 8 + 16.
Definition sizeof_ruh_status : Z := 14 + 2 + RUHSS_LEN * sizeof_ruh_status_desc.

(** The part of [struct xnvme_opts] that [main] assigns. *)
Record xnvme_opts := {
  opts_async : option string;
  opts_direct : Z;
  opts_rest : Z            (* the fields main leaves at their defaults *)
}.

(** The completion callbacks a context can carry (function pointers). *)
Inductive cb_fn := cb_unset | cb_async_cb.

Record xnvme_cmd_ctx := {
  ctx_addr : ptr;          (* the address of the context itself *)
  ctx_cb : cb_fn;          (* async.cb *)
  ctx_cb_arg : ptr;        (* async.cb_arg *)
  ctx_dev : ptr;           (* dev *)
  ctx_cpl_status : Z       (* what xnvme_cmd_ctx_cpl_status reads *)
}.

(** The response region handed to the management command. *)
Inductive region :=
| addr_of_ruh_status          (* &ruh_status, the local of main *)
| addr_heap (p : ptr).        (* a pointer value such as buf *)

Definition XNVME_PR_DEF : Z := 0.

(** ** Observable behaviour: output and library calls *)

Inductive event :=
| Stdout (s : string)
| Stderr (s : string)
| E_dev_open (ident : string) (opts : xnvme_opts)
| E_cli_perr (msg : string) (errnum : Z)
| E_dev_get_geo (dev : ptr)
| E_queue_init (dev : ptr) (capacity : Z) (opts : Z) (slot : Z)
| E_queue_term (q : ptr)
| E_buf_alloc (dev : ptr) (nbytes : Z)
| E_buf_free (dev : ptr) (buf : ptr)
| E_queue_get_cmd_ctx (q : ptr)
| E_dev_get_nsid (dev : ptr)
| E_nvm_mgmt_send (ctx : xnvme_cmd_ctx) (nsid mo mos : Z)
                  (dbuf : region) (dbuf_nbytes : Z)
| E_queue_drain (q : ptr)
| E_cmd_ctx_pr (ctx : ptr) (opts : Z)
| E_queue_put_cmd_ctx (q : ptr) (ctx : ptr)
| E_dev_close (dev : ptr).

(** What the library, the device and the process environment answer. *)
Record world := {
  w_opts_default : xnvme_opts;            (* xnvme_opts_default() *)
  w_dev_open : string -> ptr;             (* nullptr: the open failed *)
  w_errno : Z;
  w_geo_fn_addr : Z;                      (* (uint64_t) xnvme_dev_get_geo *)
  w_dev_get_geo : ptr;
  w_queue_init : Z -> Z * ptr;            (* i-th call: err, and *queue *)
  w_buf_alloc : ptr;                      (* nullptr: allocation failed *)
  w_queue_get_cmd_ctx : ptr -> xnvme_cmd_ctx;
  w_dev_get_nsid : Z;                     (* uint32_t *)
  w_nvm_mgmt_send : Z;                    (* err of the submission *)
  w_cpl : option Z;                       (* status the callback sees at
                                             drain time, if it is invoked *)
  w_queue_drain : Z;
  w_stack_ruh_status : nvme_fdp_ruh_status;   (* bytes found in the frame
                                                 slot of ruh_status *)
  w_dma : option nvme_fdp_ruh_status;     (* what the device wrote into the
                                             response region, if anything *)
  w_queue_term : Z -> Z                   (* i-th teardown call: err *)
}.

(** ** Programs: a trace of events, and early [return] *)

Inductive outcome (A : Type) :=
| Normal (a : A)            (* fell through; execution goes on *)
| Return (status : Z)       (* main returned with this exit status *)
| Fault.                    (* undefined behaviour: a read or write out of
                               bounds, front() of an empty queue, a call
                               through an unset callback *)
Arguments Normal {A} a.
Arguments Return {A} status.
Arguments Fault {A}.

Definition prog (A : Type) : Type := list event * outcome A.

Definition ret {A} (a : A) : prog A := ([], Normal a).
Definition emit (e : event) : prog unit := ([e], Normal tt).
Definition return_ {A} (status : Z) : prog A := ([], Return status).
Definition fault {A} : prog A := ([], Fault).

Definition bind {A B} (m : prog A) (f : A -> prog B) : prog B :=
  match m with
  | (t, Normal a) => let '(t', o) := f a in (t ++ t', o)
  | (t, Return c) => (t, Return c)
  | (t, Fault) => (t, Fault)
  end.

Declare Scope prog_scope.
Delimit Scope prog_scope with prog.
Notation "x <- m ;; k" := (bind m (fun x => k))
  (at level 100, m at next level, k at level 200, right associativity)
  : prog_scope.
Notation "m ;; k" := (bind m (fun _ => k))
  (at level 100, k at level 200, right associativity) : prog_scope.
Open Scope prog_scope.

Definition trace {A} (p : prog A) : list event := fst p.
Definition result {A} (p : prog A) : outcome A := snd p.

Definition inspect {A : Type} (a : A) : {b : A | a = b} := exist _ a eq_refl.

(** [for (int i = i0; extra(i) && i < bound; i++) body]: the loop state is
    threaded through [body]; an early [return] in the body leaves the loop. *)
Equations? for_loop {S : Type} (bound : Z) (extra : Z -> bool)
    (body : Z -> S -> prog S) (i : Z) (s : S) : prog S
    by wf (Z.to_nat (bound - i)) lt :=
  for_loop bound extra body i s with inspect (extra i && (i <? bound)) := {
    | @exist _ _ true H => s' <- body i s ;; for_loop bound extra body (i + 1) s'
    | @exist _ _ false H => ret s }.
Proof. apply andb_true_iff in H as [_ H]. lia. Qed.

(** Bounds-checked array access: C gives no meaning to an access outside
    the array, the model stops with [Fault]. *)
Definition array_read {A} (a : list A) (i : Z) : prog A :=
  if (0 <=? i) && (i <? Z.of_nat (length a)) then
    match a !! Z.to_nat i with Some x => ret x | None => fault end
  else fault.

Definition array_write {A} (a : list A) (i : Z) (x : A) : prog (list A) :=
  if (0 <=? i) && (i <? Z.of_nat (length a)) then ret (<[Z.to_nat i := x]> a)
  else fault.

(** ** printf conversions *)

Definition nl : string := String (Ascii.ascii_of_nat 10) EmptyString.

(** An unsigned 32- or 64-bit argument consumed by a signed conversion. *)
Definition as_signed (bits : Z) (z : Z) : Z :=
  (z + 2 ^ (bits - 1)) mod 2 ^ bits - 2 ^ (bits - 1).

Fixpoint spaces (n : nat) : string :=
  match n with O => EmptyString | S k => String (Ascii.ascii_of_nat 32) (spaces k) end.

(** [%d], [%ld], [%lu] *)
Definition fmt_d (z : Z) : string := pretty z.
(** [%<width>d]: right-justified, padded with blanks on the left *)
Definition fmt_dw (width : nat) (z : Z) : string :=
  let s := pretty z in spaces (width - String.length s)%nat +:+ s.
(** [%x] *)
Definition fmt_x (z : Z) : string :=
  NilZero.string_of_uint (N.to_hex_uint (Z.to_N z)).
(** [%s]; glibc prints a null pointer as (null) *)
Definition fmt_s (s : option string) : string := default "(null)" s.

(** [strcmp]: only the sign of the result is specified. *)
Definition strcmp (a b : string) : Z :=
  match String.compare a b with Eq => 0 | Lt => -1 | Gt => 1 end.

(** [std::queue<struct xnvme_queue *>] *)
Definition queue_push (q : list ptr) (x : ptr) : list ptr := q ++ [x].
Definition queue_front (q : list ptr) : prog ptr :=
  match q with x :: _ => ret x | [] => fault end.
Definition queue_pop (q : list ptr) : prog (list ptr) :=
  match q with _ :: q' => ret q' | [] => fault end.

(** ** The callback and the usage text (lines 35-55) *)

Definition xnvme_cmd_ctx_cpl_status (ctx : xnvme_cmd_ctx) : Z :=
  ctx_cpl_status ctx.

Definition async_cb (ctx : xnvme_cmd_ctx) (cb_arg : ptr) : prog unit :=
  emit (Stdout ("hello i am async cb" +:+ nl)) ;;
  let xqueue := cb_arg in
  (if negb (xnvme_cmd_ctx_cpl_status ctx =? 0)
   then emit (E_cmd_ctx_pr (ctx_addr ctx) XNVME_PR_DEF)
   else ret tt) ;;
  emit (E_queue_put_cmd_ctx xqueue (ctx_addr ctx)).

Definition print_usage (prog_name : option string) : prog unit :=
  emit (Stderr ("FEMU FDP Statistics Tool" +:+ nl +:+ nl)) ;;
  emit (Stderr ("Usage: " +:+ fmt_s prog_name
                +:+ " <device> [--reset|--read-only]" +:+ nl +:+ nl)) ;;
  emit (Stderr ("Options:" +:+ nl)) ;;
  emit (Stderr ("  --reset      Print stats and reset all counters (default)"
                +:+ nl)) ;;
  emit (Stderr ("  --read-only  Print stats without resetting counters"
                +:+ nl +:+ nl)) ;;
  emit (Stderr ("Examples:" +:+ nl)) ;;
  emit (Stderr ("  " +:+ fmt_s prog_name +:+ " /dev/nvme0n1 --reset" +:+ nl)) ;;
  emit (Stderr ("  " +:+ fmt_s prog_name +:+ " /dev/nvme0n1 --read-only" +:+ nl)) ;;
  emit (Stderr ("  " +:+ fmt_s prog_name +:+ " /dev/nvme0n1" +:+ nl)).

(** ** The xNVMe calls: each records its event and returns the world's
    answer, wrapped to the C type of the result *)

Section Program.
Variable w : world.

Definition xnvme_opts_default : prog xnvme_opts := ret (w_opts_default w).

Definition xnvme_dev_open (ident : string) (opts : xnvme_opts) : prog ptr :=
  emit (E_dev_open ident opts) ;; ret (w_dev_open w ident).

Definition xnvme_cli_perr (msg : string) (errnum : Z) : prog unit :=
  emit (E_cli_perr msg errnum).

Definition xnvme_dev_get_geo (dev : ptr) : prog ptr :=
  emit (E_dev_get_geo dev) ;; ret (w_dev_get_geo w).

(** The answer is the error code and the value left in [*queue]. *)
Definition xnvme_queue_init (dev : ptr) (capacity opts : Z) (slot : Z)
  : prog (Z * ptr) :=
  emit (E_queue_init dev capacity opts slot) ;; ret (w_queue_init w slot).

(** [i] numbers the call; the library sees only [q]. *)
Definition xnvme_queue_term (i : Z) (q : ptr) : prog Z :=
  emit (E_queue_term q) ;; ret (w_queue_term w i).

Definition xnvme_buf_alloc (dev : ptr) (nbytes : Z) : prog ptr :=
  emit (E_buf_alloc dev nbytes) ;; ret (w_buf_alloc w).

Definition xnvme_buf_free (dev : ptr) (buf : ptr) : prog unit :=
  emit (E_buf_free dev buf).

(** A queue created with capacity 128 and no command in flight has a free
    context: the call returns one. *)
Definition xnvme_queue_get_cmd_ctx (q : ptr) : prog xnvme_cmd_ctx :=
  emit (E_queue_get_cmd_ctx q) ;; ret (w_queue_get_cmd_ctx w q).

(** [uint32_t xnvme_dev_get_nsid(dev)] *)
Definition xnvme_dev_get_nsid (dev : ptr) : prog Z :=
  emit (E_dev_get_nsid dev) ;; ret (w_dev_get_nsid w mod 2 ^ 32).

(** [int xnvme_nvm_mgmt_send(ctx, uint32_t nsid, uint8_t mo, uint16_t mos,
    void *dbuf, uint32_t dbuf_nbytes)] *)
Definition xnvme_nvm_mgmt_send (ctx : xnvme_cmd_ctx) (nsid mo mos : Z)
    (dbuf : region) (dbuf_nbytes : Z) : prog Z :=
  emit (E_nvm_mgmt_send ctx (nsid mod 2 ^ 32) (mo mod 2 ^ 8) (mos mod 2 ^ 16)
          dbuf (dbuf_nbytes mod 2 ^ 32)) ;;
  ret (w_nvm_mgmt_send w).

(** Calling through [ctx->async.cb]. *)
Definition call_cb (ctx : xnvme_cmd_ctx) : prog unit :=
  match ctx_cb ctx with
  | cb_async_cb => async_cb ctx (ctx_cb_arg ctx)
  | cb_unset => fault
  end.

(** Draining runs the callback of the submitted context, when the engine
    reports its completion, with the completion status filled in. *)
Definition xnvme_queue_drain (q : ptr) (submitted : xnvme_cmd_ctx) : prog Z :=
  emit (E_queue_drain q) ;;
  match w_cpl w with
  | Some st =>
      call_cb {| ctx_addr := ctx_addr submitted; ctx_cb := ctx_cb submitted;
                 ctx_cb_arg := ctx_cb_arg submitted;
                 ctx_dev := ctx_dev submitted; ctx_cpl_status := st |}
  | None => ret tt
  end ;;
  ret (w_queue_drain w).

Definition xnvme_dev_close (dev : ptr) : prog unit := emit (E_dev_close dev).

(** The local [ruh_status] (line 154) has no initialiser and main never
    assigns it: when main reads it (line 180) it holds what the device wrote
    through the pointer given to the command, or else the bytes that were
    in its stack slot. *)
Definition ruh_status_at_report : nvme_fdp_ruh_status :=
  match w_dma w with Some r => r | None => w_stack_ruh_status w end.

(** ** [main] (lines 57-206), phase by phase *)

(** Lines 58-83: argument count, the device path, the optional flag.
    Yields [device], [mo] and [mode_str]. *)
Definition main_args (argv : list string) : prog (string * Z * string) :=
  let argc := Z.of_nat (length argv) in
  (if (argc <? 2) || (3 <? argc)
   then print_usage (argv !! 0%nat) ;; return_ 1
   else ret tt) ;;
  device <- match argv !! 1%nat with Some d => ret d | None => fault end ;;
  let mo := NVME_IOMS_MO_SUNGJIN in
  let mode_str := "RESET" in
  flag_result <-
    (if argc =? 3 then
       match argv !! 2%nat with
       | None => fault
       | Some flag =>
           if strcmp flag "--reset" =? 0 then
             ret (NVME_IOMS_MO_SUNGJIN, "RESET")
           else if strcmp flag "--read-only" =? 0 then
             ret (NVME_IOMS_MO_SUNGJIN_READONLY, "READ-ONLY")
           else if (strcmp flag "-h" =? 0) || (strcmp flag "--help" =? 0) then
             print_usage (argv !! 0%nat) ;; return_ 0
           else
             emit (Stderr ("Error: Unknown option '" +:+ flag +:+ "'"
                           +:+ nl +:+ nl)) ;;
             print_usage (argv !! 0%nat) ;;
             return_ 1
       end
     else ret (mo, mode_str)) ;;
  let '(mo, mode_str) := flag_result in
  ret (device, mo, mode_str).

(** Lines 85-117: banner, device open, geometry.  Yields [dev_]. *)
Definition main_open (device : string) (mo : Z) (mode_str : string)
  : prog ptr :=
  emit (Stdout ("=== FEMU FDP Statistics ===" +:+ nl)) ;;
  emit (Stdout ("Device: " +:+ device +:+ nl)) ;;
  emit (Stdout ("Mode: " +:+ mode_str +:+ " (MO=0x" +:+ fmt_x mo +:+ ")"
                +:+ nl)) ;;
  emit (Stdout ("===========================" +:+ nl +:+ nl)) ;;
  opts <- xnvme_opts_default ;;
  let opts := {| opts_async := Some "io_uring"; opts_direct := opts_direct opts;
                 opts_rest := opts_rest opts |} in
  let opts := {| opts_async := opts_async opts; opts_direct := 0;
                 opts_rest := opts_rest opts |} in
  dev_ <- xnvme_dev_open device opts ;;
  (if dev_ =? nullptr then
     emit (Stderr ("Error: Failed to open device '" +:+ device +:+ "'"
                   +:+ nl)) ;;
     emit (Stderr ("Hint: Try running with sudo, or check if the device exists."
                   +:+ nl)) ;;
     emit (Stderr ("Hint: You can verify with: xnvme info " +:+ device
                   +:+ nl)) ;;
     xnvme_cli_perr "xnvme_dev_open()" (w_errno w) ;;
     return_ 1
   else ret tt) ;;
  emit (Stdout ("Device opened successfully" +:+ nl)) ;;
  geo_ <- xnvme_dev_get_geo dev_ ;;
  emit (Stdout ("Device geometry retrieved" +:+ nl)) ;;
  emit (Stdout ("xnvme_dev_get_geo " +:+ fmt_d (w_geo_fn_addr w) +:+ nl)) ;;
  ret dev_.

(** The body of the loop of lines 120-129, on the locals [queues_] and
    [xnvme_queues_]. *)
Definition init_queue_body (dev_ : ptr) (qdepth : Z) (i : Z)
    (st : list ptr * list ptr) : prog (list ptr * list ptr) :=
  let '(queues_, xnvme_queues_) := st in
  queues_ <- array_write queues_ i nullptr ;;
  init_result <- xnvme_queue_init dev_ qdepth 0 i ;;
  let '(err, q) := init_result in
  queues_ <- array_write queues_ i q ;;
  (if negb (err =? 0) then
     emit (Stderr ("Error: Failed to initialize queue " +:+ fmt_d i +:+ nl)) ;;
     xnvme_dev_close dev_ ;;
     return_ 1
   else ret tt) ;;
  qi <- array_read queues_ i ;;
  ret (queues_, queue_push xnvme_queues_ qi).

(** Lines 93-95 and 120-130.  Yields [queues_] and [xnvme_queues_]. *)
Definition main_init_queues (dev_ : ptr) : prog (list ptr * list ptr) :=
  let queues_ := replicate (Z.to_nat MAX_NR_QUEUE) nullptr in
  let qdepth := MAX_NR_QUEUE in
  let xnvme_queues_ := [] in
  st <- for_loop MAX_NR_QUEUE (fun _ => true) (init_queue_body dev_ qdepth)
          0 (queues_, xnvme_queues_) ;;
  emit (Stdout ("Queues initialized" +:+ nl)) ;;
  ret st.

(** Lines 133-141.  Yields [buf]. *)
Definition main_alloc (dev_ : ptr) (queues_ : list ptr) : prog ptr :=
  buf <- xnvme_buf_alloc dev_ BUF_SIZE ;;
  (if buf =? nullptr then
     emit (Stderr ("Error: Failed to allocate buffer" +:+ nl)) ;;
     for_loop MAX_NR_QUEUE (fun _ => true)
       (fun i (_ : unit) =>
          q <- array_read queues_ i ;;
          _ <- xnvme_queue_term i q ;;
          ret tt) 0 tt ;;
     xnvme_dev_close dev_ ;;
     return_ 1
   else ret tt) ;;
  ret buf.

(** Lines 144-169: take a queue and a context, submit, drain. *)
Definition main_submit (dev_ : ptr) (xnvme_queues_ : list ptr) (mo : Z)
  : prog unit :=
  xqueue <- queue_front xnvme_queues_ ;;
  xnvme_queues_ <- queue_pop xnvme_queues_ ;;
  xnvme_ctx <- xnvme_queue_get_cmd_ctx xqueue ;;
  let xnvme_ctx := {| ctx_addr := ctx_addr xnvme_ctx; ctx_cb := cb_async_cb;
                      ctx_cb_arg := xqueue; ctx_dev := dev_;
                      ctx_cpl_status := ctx_cpl_status xnvme_ctx |} in
  nsid <- xnvme_dev_get_nsid dev_ ;;
  emit (Stdout ("NSID: " +:+ fmt_d nsid +:+ nl)) ;;
  let mos := 1 in
  emit (Stdout (nl +:+ "Sending IO Management Send command (MO=0x"
                +:+ fmt_x mo +:+ ")..." +:+ nl)) ;;
  err <- xnvme_nvm_mgmt_send xnvme_ctx nsid mo mos addr_of_ruh_status
           sizeof_ruh_status ;;
  (if negb (err =? 0) then
     emit (Stderr ("Warning: xnvme_nvm_mgmt_send returned error: "
                   +:+ fmt_d err +:+ nl)) ;;
     emit (Stderr ("This may be expected if using read-only mode without FEMU patch."
                   +:+ nl))
   else ret tt) ;;
  err <- xnvme_queue_drain xqueue xnvme_ctx ;;
  (if err <? 0 then
     emit (Stderr ("Warning: Failed to drain queue: " +:+ fmt_d err +:+ nl))
   else ret tt).

(** One row of the table (the printf of lines 186-190). *)
Definition ruh_row (d : nvme_fdp_ruh_status_desc) : string :=
  fmt_dw 3 (pid d) +:+ "  " +:+ fmt_dw 5 (ruhid d) +:+ "  "
  +:+ fmt_dw 6 (as_signed 32 (earutr d)) +:+ "  "
  +:+ fmt_dw 5 (as_signed 64 (ruamw d)) +:+ nl.

(** Lines 180-192: the status decoder. *)
Definition print_ruh_status (ruh_status : nvme_fdp_ruh_status) : prog unit :=
  if 0 <? nruhsd ruh_status then
    emit (Stdout (nl +:+ "=== RUH Status ===" +:+ nl)) ;;
    emit (Stdout ("Number of RUH Status Descriptors: "
                  +:+ fmt_d (nruhsd ruh_status) +:+ nl)) ;;
    emit (Stdout ("PID  RUHID  EARUTR  RUAMW" +:+ nl)) ;;
    emit (Stdout ("---  -----  ------  -----" +:+ nl)) ;;
    for_loop RUHSS_LEN (fun i => i <? nruhsd ruh_status)
      (fun i (_ : unit) =>
         d <- array_read (vec_to_list (ruhss ruh_status)) i ;;
         emit (Stdout (ruh_row d))) 0 tt
  else ret tt.

(** Lines 171-192. *)
Definition main_report (mo : Z) (ruh_status : nvme_fdp_ruh_status)
  : prog unit :=
  emit (Stdout (nl +:+ "=== Command Complete ===" +:+ nl)) ;;
  emit (Stdout ("Stats have been printed to FEMU output (check dmesg/journalctl)"
                +:+ nl)) ;;
  (if mo =? NVME_IOMS_MO_SUNGJIN
   then emit (Stdout ("Counters have been RESET" +:+ nl))
   else emit (Stdout ("Counters remain UNCHANGED (read-only mode)" +:+ nl))) ;;
  print_ruh_status ruh_status.

(** Lines 195-205. *)
Definition main_cleanup (dev_ buf : ptr) (queues_ : list ptr) : prog unit :=
  xnvme_buf_free dev_ buf ;;
  for_loop MAX_NR_QUEUE (fun _ => true)
    (fun i (_ : unit) =>
       q <- array_read queues_ i ;;
       err <- xnvme_queue_term i q ;;
       if negb (err =? 0)
       then emit (Stderr ("Warning: Failed to terminate queue " +:+ fmt_d i
                          +:+ nl))
       else ret tt) 0 tt ;;
  xnvme_dev_close dev_ ;;
  emit (Stdout (nl +:+ "Done." +:+ nl)) ;;
  return_ 0.

Definition main (argv : list string) : prog unit :=
  args <- main_args argv ;;
  let '(device, mo, mode_str) := args in
  dev_ <- main_open device mo mode_str ;;
  pool <- main_init_queues dev_ ;;
  let '(queues_, xnvme_queues_) := pool in
  buf <- main_alloc dev_ queues_ ;;
  main_submit dev_ xnvme_queues_ mo ;;
  main_report mo ruh_status_at_report ;;
  main_cleanup dev_ buf queues_.

End Program.

(** The exit status of a run. *)
Definition exit_status (p : prog unit) : option Z :=
  match result p with Return c => Some c | _ => None end.

(** ** Reading traces *)

Fixpoint count_ev (p : event -> bool) (t : list event) : nat :=
  match t with
  | [] => O
  | e :: t' => ((if p e then 1 else 0) + count_ev p t')%nat
  end.

Definition is_stderr (e : event) : bool :=
  match e with Stderr _ => true | _ => false end.
Definition is_queue_init (e : event) : bool :=
  match e with E_queue_init _ _ _ _ => true | _ => false end.
Definition is_queue_term (e : event) : bool :=
  match e with E_queue_term _ => true | _ => false end.
Definition is_buf_alloc (e : event) : bool :=
  match e with E_buf_alloc _ _ => true | _ => false end.
Definition is_buf_free (e : event) : bool :=
  match e with E_buf_free _ _ => true | _ => false end.
Definition is_dev_close (e : event) : bool :=
  match e with E_dev_close _ => true | _ => false end.
Definition is_mgmt_send (e : event) : bool :=
  match e with E_nvm_mgmt_send _ _ _ _ _ _ => true | _ => false end.
Definition is_cmd_ctx_pr (e : event) : bool :=
  match e with E_cmd_ctx_pr _ _ => true | _ => false end.
Definition is_put_cmd_ctx (e : event) : bool :=
  match e with E_queue_put_cmd_ctx _ _ => true | _ => false end.

(** The queue handles passed to [xnvme_queue_term], in call order. *)
Fixpoint terminated (t : list event) : list ptr :=
  match t with
  | [] => []
  | E_queue_term q :: t' => q :: terminated t'
  | _ :: t' => terminated t'
  end.

(** The slots passed to [xnvme_queue_init], in call order. *)
Fixpoint initialized (t : list event) : list Z :=
  match t with
  | [] => []
  | E_queue_init _ _ _ slot :: t' => slot :: initialized t'
  | _ :: t' => initialized t'
  end.

(** The library calls of a trace, in order: everything but the prints. *)
Definition is_call (e : event) : bool :=
  match e with Stdout _ | Stderr _ => false | _ => true end.

Fixpoint calls (t : list event) : list event :=
  match t with
  | [] => []
  | e :: t' => if is_call e then e :: calls t' else calls t'
  end.

Definition is_get_cmd_ctx (e : event) : bool :=
  match e with E_queue_get_cmd_ctx _ => true | _ => false end.
Definition is_queue_drain (e : event) : bool :=
  match e with E_queue_drain _ => true | _ => false end.

(** ** Vocabulary for traces and runs *)

(** The four lines printed above the descriptor rows (lines 181-184). *)
Definition ruh_header (n : Z) : list event :=
  [ Stdout (nl +:+ "=== RUH Status ===" +:+ nl);
    Stdout ("Number of RUH Status Descriptors: " +:+ fmt_d n +:+ nl);
    Stdout ("PID  RUHID  EARUTR  RUAMW" +:+ nl);
    Stdout ("---  -----  ------  -----" +:+ nl) ].

(** One printed row for each of the first min(nruhsd, 16) slots. *)
Definition ruh_rows (r : nvme_fdp_ruh_status) : list event :=
  (fun d => Stdout (ruh_row d))
    <$> take (Z.to_nat (Z.min (nruhsd r) RUHSS_LEN)) (vec_to_list (ruhss r)).

(** A response with [n] in its count field and 16 equal descriptors. *)
Definition sample_desc : nvme_fdp_ruh_status_desc :=
  {| pid := 1; ruhid := 2; earutr := 3; ruamw := 4; rsvd16 := replicate 16 0 |}.

Definition sample_ruh_status (n : Z) : nvme_fdp_ruh_status :=
  {| rsvd0 := replicate 14 0; nruhsd := n; ruhss := vreplicate 16 sample_desc |}.

Definition argc (argv : list string) : Z := Z.of_nat (length argv).

(** Everything [print_usage] prints, and its second line. *)
Definition usage_events (prog_name : option string) : list event :=
  trace (print_usage prog_name).

(** Line 79. *)
Definition unknown_option_event (flag : string) : event :=
  Stderr ("Error: Unknown option '" +:+ flag +:+ "'" +:+ nl +:+ nl).

Definition usage_line (prog_name : option string) : event :=
  Stderr ("Usage: " +:+ fmt_s prog_name +:+ " <device> [--reset|--read-only]"
          +:+ nl +:+ nl).

(** The flags [main] knows, and the argument vectors it rejects with
    exit status 1: a wrong count, or an unknown third argument. *)
Definition known_flags : list string := ["--reset"; "--read-only"; "-h"; "--help"].

Definition bad_arguments (argv : list string) : Prop :=
  argc argv < 2 \/ 3 < argc argv \/
  (argc argv = 3 /\ exists flag, argv !! 2%nat = Some flag /\ flag ∉ known_flags).

(** The argument vectors with which [main] goes on to the device: a
    device path alone, or followed by --reset or --read-only. *)
Inductive device_run : list string -> string -> Z -> string -> Prop :=
| run_default p device :
    device_run [p; device] device NVME_IOMS_MO_SUNGJIN "RESET"
| run_reset p device :
    device_run [p; device; "--reset"] device NVME_IOMS_MO_SUNGJIN "RESET"
| run_read_only p device :
    device_run [p; device; "--read-only"] device
      NVME_IOMS_MO_SUNGJIN_READONLY "READ-ONLY".

(** No event of [t] satisfies [q]. *)
Definition absent (q : event -> bool) (t : list event) : Prop :=
  Forall (fun e => q e = false) t.

(** The warnings of lines 161 and 168. *)
Definition send_warning_event (w : world) : event :=
  Stderr ("Warning: xnvme_nvm_mgmt_send returned error: "
          +:+ fmt_d (w_nvm_mgmt_send w) +:+ nl).

Definition drain_warning_event (w : world) : event :=
  Stderr ("Warning: Failed to drain queue: " +:+ fmt_d (w_queue_drain w) +:+ nl).

(** ** Sample worlds

    A world in which everything succeeds, and the ways it can go wrong. *)
Definition w_ok : world := {|
  w_opts_default := {| opts_async := None; opts_direct := 1; opts_rest := 0 |};
  w_dev_open := fun _ => 1000;
  w_errno := 2;
  w_geo_fn_addr := 4096;
  w_dev_get_geo := 1001;
  w_queue_init := fun i => (0, 2000 + i);
  w_buf_alloc := 3000;
  w_queue_get_cmd_ctx := fun q =>
    {| ctx_addr := q + 100000; ctx_cb := cb_unset; ctx_cb_arg := nullptr;
       ctx_dev := nullptr; ctx_cpl_status := 0 |};
  w_dev_get_nsid := 1;
  w_nvm_mgmt_send := 0;
  w_cpl := Some 0;
  w_queue_drain := 0;
  w_stack_ruh_status := sample_ruh_status 200;
  w_dma := Some (sample_ruh_status 2);
  w_queue_term := fun _ => 0 |}.

Definition with_dev_open (f : string -> ptr) (w : world) : world :=
  {| w_opts_default := w_opts_default w; w_dev_open := f;
     w_errno := w_errno w; w_geo_fn_addr := w_geo_fn_addr w;
     w_dev_get_geo := w_dev_get_geo w; w_queue_init := w_queue_init w;
     w_buf_alloc := w_buf_alloc w;
     w_queue_get_cmd_ctx := w_queue_get_cmd_ctx w;
     w_dev_get_nsid := w_dev_get_nsid w; w_nvm_mgmt_send := w_nvm_mgmt_send w;
     w_cpl := w_cpl w; w_queue_drain := w_queue_drain w;
     w_stack_ruh_status := w_stack_ruh_status w; w_dma := w_dma w;
     w_queue_term := w_queue_term w |}.

Definition with_queue_init (f : Z -> Z * ptr) (w : world) : world :=
  {| w_opts_default := w_opts_default w; w_dev_open := w_dev_open w;
     w_errno := w_errno w; w_geo_fn_addr := w_geo_fn_addr w;
     w_dev_get_geo := w_dev_get_geo w; w_queue_init := f;
     w_buf_alloc := w_buf_alloc w;
     w_queue_get_cmd_ctx := w_queue_get_cmd_ctx w;
     w_dev_get_nsid := w_dev_get_nsid w; w_nvm_mgmt_send := w_nvm_mgmt_send w;
     w_cpl := w_cpl w; w_queue_drain := w_queue_drain w;
     w_stack_ruh_status := w_stack_ruh_status w; w_dma := w_dma w;
     w_queue_term := w_queue_term w |}.

Definition with_buf_alloc (p : ptr) (w : world) : world :=
  {| w_opts_default := w_opts_default w; w_dev_open := w_dev_open w;
     w_errno := w_errno w; w_geo_fn_addr := w_geo_fn_addr w;
     w_dev_get_geo := w_dev_get_geo w; w_queue_init := w_queue_init w;
     w_buf_alloc := p;
     w_queue_get_cmd_ctx := w_queue_get_cmd_ctx w;
     w_dev_get_nsid := w_dev_get_nsid w; w_nvm_mgmt_send := w_nvm_mgmt_send w;
     w_cpl := w_cpl w; w_queue_drain := w_queue_drain w;
     w_stack_ruh_status := w_stack_ruh_status w; w_dma := w_dma w;
     w_queue_term := w_queue_term w |}.

(** The command is rejected, the drain fails, the device writes nothing,
    and queues 5 and 127 fail to terminate. *)
Definition w_warnings : world :=
  {| w_opts_default := w_opts_default w_ok; w_dev_open := w_dev_open w_ok;
     w_errno := w_errno w_ok; w_geo_fn_addr := w_geo_fn_addr w_ok;
     w_dev_get_geo := w_dev_get_geo w_ok; w_queue_init := w_queue_init w_ok;
     w_buf_alloc := w_buf_alloc w_ok;
     w_queue_get_cmd_ctx := w_queue_get_cmd_ctx w_ok;
     w_dev_get_nsid := w_dev_get_nsid w_ok; w_nvm_mgmt_send := -22;
     w_cpl := None; w_queue_drain := -5;
     w_stack_ruh_status := sample_ruh_status 200; w_dma := None;
     w_queue_term := fun i => if (i =? 5) || (i =? 127) then -16 else 0 |}.

(** No device can be opened. *)
Definition w_no_device : world := with_dev_open (fun _ => nullptr) w_ok.

(** Queue 0 is created, the initialization of queue 1 fails (-ENOMEM). *)
Definition w_queue_1_fails : world :=
  with_queue_init (fun i => if i =? 1 then (-12, nullptr) else (0, 2000 + i))
    w_ok.

(** The buffer cannot be allocated. *)
Definition w_no_buffer : world := with_buf_alloc nullptr w_ok.

Definition argv_default : list string := ["fdp_stats"; "/dev/nvme0n1"].
Definition argv_read_only : list string :=
  ["fdp_stats"; "/dev/nvme0n1"; "--read-only"].
Definition argv_bogus : list string := ["fdp_stats"; "/dev/nvme0n1"; "--bogus"].

(** ** The events of each phase of [main]

    The trace that each phase of [main] produces in a world [w], written
    out as a list so that statements about whole runs can name their
    parts.  That the phases produce exactly these traces is proved below
    ([main_open_ok], [main_init_queues_ok], [main_alloc_failed],
    [main_submit_run], [main_report_run], [main_cleanup_run], ...). *)

Section Phases.
Variable w : world.

(** Lines 85-88. *)
Definition banner_events (device : string) (mo : Z) (mode_str : string)
  : list event :=
  [ Stdout ("=== FEMU FDP Statistics ===" +:+ nl);
    Stdout ("Device: " +:+ device +:+ nl);
    Stdout ("Mode: " +:+ mode_str +:+ " (MO=0x" +:+ fmt_x mo +:+ ")" +:+ nl);
    Stdout ("===========================" +:+ nl +:+ nl) ].

(** The options [main] opens the device with (lines 90, 99, 101). *)
Definition open_opts : xnvme_opts :=
  {| opts_async := Some "io_uring"; opts_direct := 0;
     opts_rest := opts_rest (w_opts_default w) |}.

(** Lines 107-110. *)
Definition open_failed_events (device : string) : list event :=
  [ Stderr ("Error: Failed to open device '" +:+ device +:+ "'" +:+ nl);
    Stderr ("Hint: Try running with sudo, or check if the device exists."
            +:+ nl);
    Stderr ("Hint: You can verify with: xnvme info " +:+ device +:+ nl);
    E_cli_perr "xnvme_dev_open()" (w_errno w) ].

(** Lines 113-117. *)
Definition opened_events (dev : ptr) : list event :=
  [ Stdout ("Device opened successfully" +:+ nl);
    E_dev_get_geo dev;
    Stdout ("Device geometry retrieved" +:+ nl);
    Stdout ("xnvme_dev_get_geo " +:+ fmt_d (w_geo_fn_addr w) +:+ nl) ].

(** The error code and the handle [xnvme_queue_init] gives for slot [i]. *)
Definition init_err (i : Z) : Z := (w_queue_init w i).1.

Definition queue_handle (i : Z) : ptr := (w_queue_init w i).2.

(** The handles of queues 0..n-1. *)
Definition created_queues (n : Z) : list ptr := queue_handle <$> seqZ 0 n.

(** The initialization calls for slots 0..n-1 (line 122). *)
Definition init_events (dev : ptr) (n : Z) : list event :=
  (fun i => E_queue_init dev MAX_NR_QUEUE 0 i) <$> seqZ 0 n.

(** Lines 124-125. *)
Definition init_failed_events (dev : ptr) (k : Z) : list event :=
  [ Stderr ("Error: Failed to initialize queue " +:+ fmt_d k +:+ nl);
    E_dev_close dev ].

(** The locals [queues_] and [xnvme_queues_] when iteration [j] starts. *)
Definition pool_at (j : Z) : list ptr * list ptr :=
  (created_queues j ++ replicate (Z.to_nat (MAX_NR_QUEUE - j)) nullptr,
   created_queues j).

(** Line 199. *)
Definition term_warning (i : Z) : event :=
  Stderr ("Warning: Failed to terminate queue " +:+ fmt_d i +:+ nl).

(** What iteration [i] of a termination loop does: the call, and with
    [warn] (the loop of the teardown) the warning if the call failed. *)
Definition term_events (warn : bool) (queues_ : list ptr) (i : Z)
  : list event :=
  match queues_ !! Z.to_nat i with
  | Some q => E_queue_term q
              :: (if warn && negb (w_queue_term w i =? 0)
                  then [term_warning i] else [])
  | None => []
  end.

(** Lines 133-139 when the allocation fails. *)
Definition alloc_failed_events (dev : ptr) (queues_ : list ptr) : list event :=
  E_buf_alloc dev BUF_SIZE
  :: Stderr ("Error: Failed to allocate buffer" +:+ nl)
  :: flat_map (term_events false queues_) (seqZ 0 MAX_NR_QUEUE)
  ++ [E_dev_close dev].

(** The context as [main] binds it (lines 147-149). *)
Definition bound_ctx (dev xqueue : ptr) : xnvme_cmd_ctx :=
  {| ctx_addr := ctx_addr (w_queue_get_cmd_ctx w xqueue);
     ctx_cb := cb_async_cb; ctx_cb_arg := xqueue; ctx_dev := dev;
     ctx_cpl_status := ctx_cpl_status (w_queue_get_cmd_ctx w xqueue) |}.

(** The same context when its completion is reported with status [st]. *)
Definition completed_ctx (dev xqueue : ptr) (st : Z) : xnvme_cmd_ctx :=
  {| ctx_addr := ctx_addr (w_queue_get_cmd_ctx w xqueue);
     ctx_cb := cb_async_cb; ctx_cb_arg := xqueue; ctx_dev := dev;
     ctx_cpl_status := st |}.

(** What [xnvme_dev_get_nsid] returns (line 151). *)
Definition nsid_of_device : Z := w_dev_get_nsid w mod 2 ^ 32.

(** The call of line 159. *)
Definition send_event (dev xqueue : ptr) (mo : Z) : event :=
  E_nvm_mgmt_send (bound_ctx dev xqueue) (nsid_of_device mod 2 ^ 32)
    (mo mod 2 ^ 8) (1 mod 2 ^ 16) addr_of_ruh_status
    (sizeof_ruh_status mod 2 ^ 32).

(** Lines 160-163. *)
Definition send_warnings : list event :=
  if w_nvm_mgmt_send w =? 0 then []
  else [ Stderr ("Warning: xnvme_nvm_mgmt_send returned error: "
                 +:+ fmt_d (w_nvm_mgmt_send w) +:+ nl);
         Stderr ("This may be expected if using read-only mode without FEMU patch."
                 +:+ nl) ].

(** What the callback does when the drain reports the completion. *)
Definition callback_events (dev xqueue : ptr) : list event :=
  match w_cpl w with
  | Some st => trace (async_cb (completed_ctx dev xqueue st) xqueue)
  | None => []
  end.

(** Lines 167-169. *)
Definition drain_warnings : list event :=
  if w_queue_drain w <? 0
  then [Stderr ("Warning: Failed to drain queue: " +:+ fmt_d (w_queue_drain w)
                +:+ nl)]
  else [].

(** Lines 144-169. *)
Definition submit_events (dev xqueue : ptr) (mo : Z) : list event :=
  [ E_queue_get_cmd_ctx xqueue;
    E_dev_get_nsid dev;
    Stdout ("NSID: " +:+ fmt_d nsid_of_device +:+ nl);
    Stdout (nl +:+ "Sending IO Management Send command (MO=0x" +:+ fmt_x mo
            +:+ ")..." +:+ nl);
    send_event dev xqueue mo ]
  ++ send_warnings
  ++ E_queue_drain xqueue :: callback_events dev xqueue
  ++ drain_warnings.

(** Lines 171-192, for the content [r] of [ruh_status]. *)
Definition report_events (mo : Z) (r : nvme_fdp_ruh_status) : list event :=
  [ Stdout (nl +:+ "=== Command Complete ===" +:+ nl);
    Stdout ("Stats have been printed to FEMU output (check dmesg/journalctl)"
            +:+ nl);
    Stdout (if mo =? NVME_IOMS_MO_SUNGJIN
            then "Counters have been RESET" +:+ nl
            else "Counters remain UNCHANGED (read-only mode)" +:+ nl) ]
  ++ (if 0 <? nruhsd r then ruh_header (nruhsd r) ++ ruh_rows r else []).

(** Lines 195-204. *)
Definition cleanup_events (dev buf : ptr) (queues_ : list ptr) : list event :=
  E_buf_free dev buf
  :: flat_map (term_events true queues_) (seqZ 0 MAX_NR_QUEUE)
  ++ [E_dev_close dev; Stdout (nl +:+ "Done." +:+ nl)].

(** The three steps of the setup, and their success. *)
Definition device_opens (device : string) : Prop :=
  w_dev_open w device <> nullptr.

Definition queues_created : Prop :=
  forall i, 0 <= i < MAX_NR_QUEUE -> init_err i = 0.

(** Queue [k] is the first whose initialization fails. *)
Definition init_fails_at (k : Z) : Prop :=
  0 <= k < MAX_NR_QUEUE /\
  (forall i, 0 <= i < k -> init_err i = 0) /\ init_err k <> 0.

Definition buffer_allocated : Prop := w_buf_alloc w <> nullptr.

Definition setup_succeeds (device : string) : Prop :=
  device_opens device /\ queues_created /\ buffer_allocated.

(** Lines 85-117 when the device opens. *)
Definition open_events (device : string) (mo : Z) (mode_str : string)
  : list event :=
  banner_events device mo mode_str
  ++ E_dev_open device open_opts :: opened_events (w_dev_open w device).

(** Lines 120-130 when all queues are created. *)
Definition pool_events (dev : ptr) : list event :=
  init_events dev MAX_NR_QUEUE ++ [Stdout ("Queues initialized" +:+ nl)].

(** The paths of [main]: it stops in the argument check (only stderr
    output), or goes on to the device and fails to open it, fails to
    create queue [k], fails to allocate the buffer, or runs to the end. *)
Inductive run_path (argv : list string) : Prop :=
| path_arguments t c :
    main w argv = (t, Return c) ->
    Forall (fun e => is_stderr e = true) t ->
    run_path argv
| path_open_failed device mo mode_str :
    device_run argv device mo mode_str ->
    w_dev_open w device = nullptr ->
    main w argv
    = (banner_events device mo mode_str
       ++ E_dev_open device open_opts :: open_failed_events device,
       Return 1) ->
    run_path argv
| path_init_failed device mo mode_str k :
    device_run argv device mo mode_str ->
    device_opens device -> init_fails_at k ->
    main w argv
    = (open_events device mo mode_str
       ++ init_events (w_dev_open w device) (k + 1)
       ++ init_failed_events (w_dev_open w device) k, Return 1) ->
    run_path argv
| path_alloc_failed device mo mode_str :
    device_run argv device mo mode_str ->
    device_opens device -> queues_created -> w_buf_alloc w = nullptr ->
    main w argv
    = (open_events device mo mode_str
       ++ pool_events (w_dev_open w device)
       ++ alloc_failed_events (w_dev_open w device)
            (created_queues MAX_NR_QUEUE), Return 1) ->
    run_path argv
| path_success device mo mode_str :
    device_run argv device mo mode_str ->
    setup_succeeds device ->
    main w argv
    = (open_events device mo mode_str
       ++ pool_events (w_dev_open w device)
       ++ [E_buf_alloc (w_dev_open w device) BUF_SIZE]
       ++ submit_events (w_dev_open w device) (queue_handle 0) mo
       ++ report_events mo (ruh_status_at_report w)
       ++ cleanup_events (w_dev_open w device) (w_buf_alloc w)
            (created_queues MAX_NR_QUEUE), Return 0) ->
    run_path argv.

(** *** The library calls of each path

    The calls the callback makes when the drain reports a completion:
    the diagnostic for a nonzero status, then the hand-back. *)
Definition callback_calls (xqueue : ptr) : list event :=
  match w_cpl w with
  | Some st =>
      (if st =? 0 then []
       else [E_cmd_ctx_pr (ctx_addr (w_queue_get_cmd_ctx w xqueue))
               XNVME_PR_DEF])
      ++ [E_queue_put_cmd_ctx xqueue
            (ctx_addr (w_queue_get_cmd_ctx w xqueue))]
  | None => []
  end.

(** The device cannot be opened (lines 105-111). *)
Definition open_failed_calls (device : string) : list event :=
  [ E_dev_open device open_opts; E_cli_perr "xnvme_dev_open()" (w_errno w) ].

(** The initialization of queue [k] fails (lines 105-126). *)
Definition init_failed_calls (device : string) (k : Z) : list event :=
  [ E_dev_open device open_opts; E_dev_get_geo (w_dev_open w device) ]
  ++ init_events (w_dev_open w device) (k + 1)
  ++ [ E_dev_close (w_dev_open w device) ].

(** The buffer allocation fails (lines 105-140). *)
Definition alloc_failed_calls (device : string) : list event :=
  [ E_dev_open device open_opts; E_dev_get_geo (w_dev_open w device) ]
  ++ init_events (w_dev_open w device) MAX_NR_QUEUE
  ++ [ E_buf_alloc (w_dev_open w device) BUF_SIZE ]
  ++ (E_queue_term <$> created_queues MAX_NR_QUEUE)
  ++ [ E_dev_close (w_dev_open w device) ].

(** The run goes to its end (lines 105-202). *)
Definition success_calls (device : string) (mo : Z) : list event :=
  [ E_dev_open device open_opts; E_dev_get_geo (w_dev_open w device) ]
  ++ init_events (w_dev_open w device) MAX_NR_QUEUE
  ++ [ E_buf_alloc (w_dev_open w device) BUF_SIZE;
       E_queue_get_cmd_ctx (queue_handle 0);
       E_dev_get_nsid (w_dev_open w device);
       send_event (w_dev_open w device) (queue_handle 0) mo;
       E_queue_drain (queue_handle 0) ]
  ++ callback_calls (queue_handle 0)
  ++ [ E_buf_free (w_dev_open w device) (w_buf_alloc w) ]
  ++ (E_queue_term <$> created_queues MAX_NR_QUEUE)
  ++ [ E_dev_close (w_dev_open w device) ].

(** Nothing fails after the setup: the command is accepted, the drain
    succeeds and every queue terminates. *)
Definition no_late_failure : Prop :=
  w_nvm_mgmt_send w = 0 /\ 0 <= w_queue_drain w /\
  forall i, 0 <= i < MAX_NR_QUEUE -> w_queue_term w i = 0.

(** ** Laws of [bind] and of [for_loop] *)

Lemma bind_normal {A B} (m : prog A) (f : A -> prog B) t a :
  m = (t, Normal a) -> bind m f = (t ++ trace (f a), result (f a)).
Proof. intros ->. unfold bind, trace, result. by destruct (f a). Qed.

Lemma bind_return {A B} (m : prog A) (f : A -> prog B) t c :
  m = (t, Return c) -> bind m f = (t, Return c).
Proof. by intros ->. Qed.

Lemma bind_emit {B} (e : event) (k : prog B) :
  (emit e ;; k) = (e :: trace k, result k).
Proof. unfold emit, bind, trace, result. by destruct k. Qed.

Lemma bind_ret {A B} (a : A) (f : A -> prog B) : bind (ret a) f = f a.
Proof. unfold ret, bind. by destruct (f a). Qed.

Lemma bind_assoc {A B C} (m : prog A) (f : A -> prog B) (g : B -> prog C) :
  bind (bind m f) g = bind m (fun x => bind (f x) g).
Proof.
  destruct m as [t [a| |]]; simpl; try done.
  destruct (f a) as [t1 [b| |]]; simpl; try done.
  destruct (g b) as [t2 o]. by rewrite app_assoc.
Qed.

Lemma trace_pair {A} (t : list event) (o : outcome A) : trace (t, o) = t.
Proof. reflexivity. Qed.

Lemma result_pair {A} (t : list event) (o : outcome A) : result (t, o) = o.
Proof. reflexivity. Qed.

Lemma trace_ret {A} (a : A) : trace (ret a) = [].
Proof. reflexivity. Qed.

Lemma result_ret {A} (a : A) : result (ret a) = Normal a.
Proof. reflexivity. Qed.

Lemma bind_pair {A B} (t : list event) (a : A) (f : A -> prog B) :
  bind (t, Normal a) f = (t ++ trace (f a), result (f a)).
Proof. by apply bind_normal. Qed.

(** Symbolic execution of a straight-line program. *)
Ltac run_prog :=
  repeat first
    [ rewrite bind_assoc | rewrite bind_ret | rewrite bind_emit
    | rewrite trace_pair | rewrite result_pair
    | rewrite trace_ret | rewrite result_ret | rewrite bind_pair ].

Lemma for_loop_step {St} bound extra (body : Z -> St -> prog St) i s :
  for_loop bound extra body i s =
  if extra i && (i <? bound)
  then s' <- body i s ;; for_loop bound extra body (i + 1) s'
  else ret s.
Proof.
  rewrite for_loop_equation_1.
  unfold for_loop_unfold_clause_1, inspect.
  by destruct (extra i && (i <? bound)).
Qed.

(** A loop whose guard holds on [i, m) and fails at [m], and whose body
    falls through on [i, m), stepping the state from [g j] to [g (j + 1)]
    with events [f j]. *)
Lemma for_loop_normal {St} bound extra (body : Z -> St -> prog St)
    (f : Z -> list event) (g : Z -> St) (n : nat) (i : Z) :
  (forall j, i <= j < i + Z.of_nat n -> extra j && (j <? bound) = true) ->
  extra (i + Z.of_nat n) && (i + Z.of_nat n <? bound) = false ->
  (forall j, i <= j < i + Z.of_nat n -> body j (g j) = (f j, Normal (g (j + 1)))) ->
  for_loop bound extra body i (g i)
  = (flat_map f (seqZ i (Z.of_nat n)), Normal (g (i + Z.of_nat n))).
Proof.
  revert i. induction n as [|n IH]; intros i Hguard Hstop Hbody.
  - rewrite for_loop_step. rewrite Z.add_0_r in *. by rewrite Hstop.
  - rewrite for_loop_step, Hguard by lia.
    rewrite (bind_normal _ _ (f i) (g (i + 1))) by (apply Hbody; lia).
    rewrite IH.
    + unfold trace, result; simpl fst; simpl snd.
      rewrite (seqZ_cons i) by lia. simpl flat_map.
      replace (Z.succ i) with (i + 1) by lia.
      replace (Z.pred (Z.of_nat (S n))) with (Z.of_nat n) by lia.
      by replace (i + 1 + Z.of_nat n) with (i + Z.of_nat (S n)) by lia.
    + intros j Hj. apply Hguard. lia.
    + by replace (i + 1 + Z.of_nat n) with (i + Z.of_nat (S n)) by lia.
    + intros j Hj. apply Hbody. lia.
Qed.

(** The same loop when the body returns from [main] at iteration
    [i + n]. *)
Lemma for_loop_return {St} bound extra (body : Z -> St -> prog St)
    (f : Z -> list event) (g : Z -> St) (n : nat) (i : Z) tk c :
  (forall j, i <= j <= i + Z.of_nat n -> extra j && (j <? bound) = true) ->
  (forall j, i <= j < i + Z.of_nat n -> body j (g j) = (f j, Normal (g (j + 1)))) ->
  body (i + Z.of_nat n) (g (i + Z.of_nat n)) = (tk, Return c) ->
  for_loop bound extra body i (g i)
  = (flat_map f (seqZ i (Z.of_nat n)) ++ tk, Return c).
Proof.
  revert i. induction n as [|n IH]; intros i Hguard Hbody Hret.
  - rewrite for_loop_step, Hguard by lia. rewrite Z.add_0_r in Hret.
    by rewrite (bind_return _ _ tk c).
  - rewrite for_loop_step, Hguard by lia.
    rewrite (bind_normal _ _ (f i) (g (i + 1))) by (apply Hbody; lia).
    rewrite IH.
    + unfold trace, result; simpl fst; simpl snd.
      rewrite (seqZ_cons i) by lia. simpl flat_map.
      replace (Z.succ i) with (i + 1) by lia.
      replace (Z.pred (Z.of_nat (S n))) with (Z.of_nat n) by lia.
      by rewrite <- app_assoc.
    + intros j Hj. apply Hguard. lia.
    + intros j Hj. apply Hbody. lia.
    + by replace (i + 1 + Z.of_nat n) with (i + Z.of_nat (S n)) by lia.
Qed.

Lemma array_read_lookup {A} (a : list A) (i : Z) (x : A) :
  0 <= i -> a !! Z.to_nat i = Some x -> array_read a i = ret x.
Proof.
  intros Hi Hx. unfold array_read.
  pose proof (lookup_lt_Some _ _ _ Hx) as Hlt.
  replace ((0 <=? i) && (i <? Z.of_nat (length a))) with true
    by (symmetry; apply andb_true_iff; split; [apply Z.leb_le | apply Z.ltb_lt]; lia).
  by rewrite Hx.
Qed.

Lemma array_read_fault {A} (a : list A) (i : Z) :
  Z.of_nat (length a) <= i -> array_read a i = fault.
Proof.
  intros Hi. unfold array_read.
  replace (i <? Z.of_nat (length a)) with false
    by (symmetry; apply Z.ltb_ge; lia).
  by rewrite andb_false_r.
Qed.

Lemma array_write_ok {A} (a : list A) (i : Z) (x : A) :
  0 <= i < Z.of_nat (length a) ->
  array_write a i x = ret (<[Z.to_nat i := x]> a).
Proof.
  intros Hi. unfold array_write.
  by replace ((0 <=? i) && (i <? Z.of_nat (length a))) with true
    by (symmetry; apply andb_true_iff; split; [apply Z.leb_le | apply Z.ltb_lt]; lia).
Qed.

(** Walking the first [m] slots of an array by index visits [take m]. *)
Lemma flat_map_lookup_seqZ {A} (l : list A) (F : A -> list event) (m : nat) :
  (m <= length l)%nat ->
  flat_map (fun j => match l !! Z.to_nat j with Some d => F d | None => [] end)
    (seqZ 0 (Z.of_nat m))
  = flat_map F (take m l).
Proof.
  induction m as [|m IH]; intros Hm; [done|].
  destruct (lookup_lt_is_Some_2 l m) as [x Hx]; [lia|].
  rewrite Nat2Z.inj_succ, <- Z.add_1_r, seqZ_app by lia.
  rewrite (take_S_r _ _ _ Hx), !flat_map_app, IH by lia.
  simpl. replace (Z.to_nat (Z.of_nat 0 + (0 + Z.of_nat m))) with m by lia.
  by rewrite Hx.
Qed.

Lemma flat_map_single {A} (F : A -> event) (l : list A) :
  flat_map (fun d => [F d]) l = F <$> l.
Proof. induction l as [|x l IH]; simpl; [done | by rewrite IH]. Qed.

Lemma terminated_app t1 t2 : terminated (t1 ++ t2) = terminated t1 ++ terminated t2.
Proof.
  induction t1 as [|e t1 IH]; simpl; [done|]. destruct e; simpl; by rewrite ?IH.
Qed.

Lemma initialized_app t1 t2 :
  initialized (t1 ++ t2) = initialized t1 ++ initialized t2.
Proof.
  induction t1 as [|e t1 IH]; simpl; [done|]. destruct e; simpl; by rewrite ?IH.
Qed.

(** ** The completion callback *)

Lemma async_cb_run ctx cb_arg :
  async_cb ctx cb_arg =
  (Stdout ("hello i am async cb" +:+ nl)
   :: (if xnvme_cmd_ctx_cpl_status ctx =? 0 then []
       else [E_cmd_ctx_pr (ctx_addr ctx) XNVME_PR_DEF])
   ++ [E_queue_put_cmd_ctx cb_arg (ctx_addr ctx)], Normal tt).
Proof. unfold async_cb. by destruct (xnvme_cmd_ctx_cpl_status ctx =? 0). Qed.

(** C8: whatever context and completion status the callback is invoked
    with, it falls through to its end; it prints the diagnostic
    ([xnvme_cmd_ctx_pr] of that context) exactly when the completion status
    is nonzero, and never more than once; and it hands the context back to
    the queue it was registered with ([cb_arg]) exactly once, as its last
    action, on both branches. *)
Theorem async_cb_reports_and_releases (ctx : xnvme_cmd_ctx) (cb_arg : ptr) :
  let t := trace (async_cb ctx cb_arg) in
  result (async_cb ctx cb_arg) = Normal tt /\
  (E_cmd_ctx_pr (ctx_addr ctx) XNVME_PR_DEF ∈ t
     <-> xnvme_cmd_ctx_cpl_status ctx <> 0) /\
  count_ev is_cmd_ctx_pr t
    = (if xnvme_cmd_ctx_cpl_status ctx =? 0 then 0%nat else 1%nat) /\
  count_ev is_put_cmd_ctx t = 1%nat /\
  last t = Some (E_queue_put_cmd_ctx cb_arg (ctx_addr ctx)).
Proof.
  rewrite async_cb_run. unfold trace, result. simpl fst. simpl snd.
  destruct (Z.eqb_spec (xnvme_cmd_ctx_cpl_status ctx) 0) as [H0|H0];
    simpl; repeat split; try done.
  - intros Hin. rewrite !elem_of_cons, elem_of_nil in Hin.
    by destruct Hin as [?|[?|?]].
  - intros _. rewrite !elem_of_cons. auto.
Qed.

(** ** The status decoder *)

Lemma print_ruh_status_run (r : nvme_fdp_ruh_status) :
  print_ruh_status r
  = (if 0 <? nruhsd r then ruh_header (nruhsd r) ++ ruh_rows r else [],
     Normal tt).
Proof.
  unfold print_ruh_status.
  destruct (Z.ltb_spec 0 (nruhsd r)) as [Hpos|Hle]; [|done].
  set (slots := vec_to_list (ruhss r)).
  assert (Hlen : length slots = 16%nat) by apply length_vec_to_list.
  set (m := Z.to_nat (Z.min (nruhsd r) RUHSS_LEN)).
  assert (Hm : Z.of_nat m = Z.min (nruhsd r) 16) by (unfold m, RUHSS_LEN; lia).
  pose proof (for_loop_normal RUHSS_LEN (fun i => i <? nruhsd r)
    (fun i (_ : unit) => d <- array_read slots i ;; emit (Stdout (ruh_row d)))
    (fun j => match slots !! Z.to_nat j with
              | Some d => [Stdout (ruh_row d)] | None => [] end)
    (fun _ => tt) m 0) as Hloop.
  simpl in Hloop. rewrite !bind_emit, Hloop; clear Hloop.
  - unfold trace, result, ruh_header, ruh_rows. simpl fst. simpl snd.
    fold slots. fold m.
    rewrite (flat_map_lookup_seqZ slots (fun d => [Stdout (ruh_row d)])) by lia.
    cbn [app]. by rewrite flat_map_single.
  - intros j Hj. unfold RUHSS_LEN.
    apply andb_true_iff; split; apply Z.ltb_lt; lia.
  - unfold RUHSS_LEN. apply andb_false_iff.
    destruct (Z.le_ge_cases (nruhsd r) 16);
      [left | right]; apply Z.ltb_ge; lia.
  - intros j Hj.
    destruct (lookup_lt_is_Some_2 slots (Z.to_nat j)) as [d Hd]; [lia|].
    rewrite Hd, (array_read_lookup _ _ d), bind_ret by (done || lia).
    done.
Qed.

(** C3: for every 16-bit value of [nruhsd], the decoding step (lines
    180-192) runs to its end without an access outside the 16 slots (it
    ends [Normal], whereas a read at any index of 16 or more is a [Fault]),
    and prints, after the header, exactly one row for each of the first
    min(nruhsd, 16) slots, in order.  With nruhsd = 200 that is 16 rows;
    with nruhsd = 0 nothing at all is printed, not even the header. *)
Theorem decode_clamps_to_16_slots (r : nvme_fdp_ruh_status) :
  0 <= nruhsd r < 2 ^ 16 ->
  result (print_ruh_status r) = Normal tt /\
  (forall i, 16 <= i -> array_read (vec_to_list (ruhss r)) i = fault) /\
  trace (print_ruh_status r)
    = (if 0 <? nruhsd r then ruh_header (nruhsd r) else []) ++ ruh_rows r /\
  length (ruh_rows r) = Z.to_nat (Z.min (nruhsd r) 16) /\
  (nruhsd r = 200 -> length (ruh_rows r) = 16%nat) /\
  (nruhsd r = 0 -> trace (print_ruh_status r) = []).
Proof.
  intros Hrange. rewrite print_ruh_status_run. unfold trace, result.
  simpl fst. simpl snd.
  assert (Hlen : length (ruh_rows r) = Z.to_nat (Z.min (nruhsd r) 16)).
  { unfold ruh_rows, RUHSS_LEN.
    rewrite length_fmap, length_take, length_vec_to_list. lia. }
  repeat split.
  - intros i Hi. apply array_read_fault. rewrite length_vec_to_list. lia.
  - destruct (Z.ltb_spec 0 (nruhsd r)) as [Hpos|Hle]; [done|].
    destruct (ruh_rows r); [done | simpl in Hlen; lia].
  - done.
  - intros H. rewrite Hlen, H. done.
  - intros H. by rewrite H.
Qed.

Lemma decode_clamps_to_16_slots_witness :
  length (ruh_rows (sample_ruh_status 200)) = 16%nat.
Proof.
  apply (decode_clamps_to_16_slots (sample_ruh_status 200)); [simpl; lia | done].
Defined.

(** ** Argument parsing (lines 58-83) *)

Lemma string_compare_refl (b : string) : String.compare b b = Eq.
Proof.
  pose proof (String.compare_antisym b b) as H.
  destruct (String.compare b b); simpl in H; congruence.
Qed.

Lemma strcmp_eqb (a b : string) : (strcmp a b =? 0) = bool_decide (a = b).
Proof.
  unfold strcmp. destruct (String.compare a b) eqn:Hc.
  - apply String.compare_eq_iff in Hc. by rewrite bool_decide_eq_true_2.
  - rewrite bool_decide_eq_false_2; [done|].
    intros ->. by rewrite string_compare_refl in Hc.
  - rewrite bool_decide_eq_false_2; [done|].
    intros ->. by rewrite string_compare_refl in Hc.
Qed.

Lemma main_args_wrong_count argv :
  argc argv < 2 \/ 3 < argc argv ->
  main_args argv = (usage_events (argv !! 0%nat), Return 1).
Proof.
  intros Hc. unfold main_args. fold (argc argv).
  replace ((argc argv <? 2) || (3 <? argc argv)) with true; [done|].
  symmetry. apply orb_true_iff.
  destruct Hc; [left|right]; by apply Z.ltb_lt.
Qed.

Lemma main_args_two p device :
  main_args [p; device] = ([], Normal (device, NVME_IOMS_MO_SUNGJIN, "RESET")).
Proof. reflexivity. Qed.

Lemma main_args_three p device flag :
  main_args [p; device; flag] =
  if bool_decide (flag = "--reset") then
    ([], Normal (device, NVME_IOMS_MO_SUNGJIN, "RESET"))
  else if bool_decide (flag = "--read-only") then
    ([], Normal (device, NVME_IOMS_MO_SUNGJIN_READONLY, "READ-ONLY"))
  else if bool_decide (flag = "-h") || bool_decide (flag = "--help") then
    (usage_events (Some p), Return 0)
  else
    (unknown_option_event flag :: usage_events (Some p), Return 1).
Proof.
  unfold main_args. simpl length. simpl lookup.
  change (Z.of_nat 3 <? 2) with false. change (3 <? Z.of_nat 3) with false.
  change (Z.of_nat 3 =? 3) with true. cbn [orb].
  rewrite !bind_ret. rewrite !strcmp_eqb.
  repeat case_bool_decide; reflexivity.
Qed.

Lemma main_args_device_run argv device mo mode_str :
  device_run argv device mo mode_str ->
  main_args argv = ([], Normal (device, mo, mode_str)).
Proof.
  destruct 1; [apply main_args_two | by rewrite main_args_three ..].
Qed.

Lemma main_args_bad argv :
  bad_arguments argv ->
  exists t, main_args argv = (t ++ usage_events (argv !! 0%nat), Return 1) /\
    ((argc argv <> 3 /\ t = []) \/
     exists flag, argv !! 2%nat = Some flag /\ argc argv = 3 /\
                  t = [unknown_option_event flag]).
Proof.
  intros [Hc|[Hc|(Hc & flag & Hflag & Hunknown)]].
  - exists []. split; [apply main_args_wrong_count; auto|]. left. split; [lia|done].
  - exists []. split; [apply main_args_wrong_count; auto|]. left. split; [lia|done].
  - destruct argv as [|p [|device [|flag' [|? ?]]]]; unfold argc in Hc;
      simpl in Hc; try lia.
    simpl in Hflag. injection Hflag as ->.
    exists [unknown_option_event flag]. split; [|right; eauto].
    rewrite main_args_three. unfold known_flags in Hunknown.
    rewrite !elem_of_cons, elem_of_nil in Hunknown.
    repeat case_bool_decide; simpl; try done; exfalso; apply Hunknown; auto.
Qed.

(** ** The phases of [main], run symbolically *)

Lemma main_open_failed device mo mode_str :
  w_dev_open w device = nullptr ->
  main_open w device mo mode_str
  = (banner_events device mo mode_str ++ E_dev_open device open_opts
       :: open_failed_events device, Return 1).
Proof. intros H. unfold main_open, xnvme_dev_open. by rewrite !bind_emit, H. Qed.

Lemma main_open_ok device mo mode_str :
  w_dev_open w device <> nullptr ->
  main_open w device mo mode_str
  = (banner_events device mo mode_str ++ E_dev_open device open_opts
       :: opened_events (w_dev_open w device), Normal (w_dev_open w device)).
Proof.
  intros H. unfold main_open, xnvme_dev_open.
  rewrite !bind_emit. simpl.
  destruct (Z.eqb_spec (w_dev_open w device) nullptr); [done|]. reflexivity.
Qed.

(** *** Queue creation *)

Lemma created_queues_succ j :
  0 <= j -> created_queues (j + 1) = created_queues j ++ [queue_handle j].
Proof.
  intros Hj. unfold created_queues. rewrite seqZ_app by lia.
  by rewrite fmap_app.
Qed.

Lemma length_created_queues j : length (created_queues j) = Z.to_nat j.
Proof. unfold created_queues. by rewrite length_fmap, length_seqZ. Qed.

Lemma created_queues_lookup n i :
  0 <= i < n -> created_queues n !! Z.to_nat i = Some (queue_handle i).
Proof.
  intros Hi. unfold created_queues.
  rewrite list_lookup_fmap, lookup_seqZ_lt by lia.
  simpl. do 2 f_equal. lia.
Qed.

Lemma insert_middle {A} (l1 l2 : list A) (x y : A) (n : nat) :
  n = length l1 -> <[n := y]> (l1 ++ x :: l2) = l1 ++ y :: l2.
Proof.
  intros ->. rewrite insert_app_r_alt by lia. by rewrite Nat.sub_diag.
Qed.

Lemma init_queue_body_ok dev j :
  0 <= j < MAX_NR_QUEUE -> init_err j = 0 ->
  init_queue_body w dev MAX_NR_QUEUE j (pool_at j)
  = ([E_queue_init dev MAX_NR_QUEUE 0 j], Normal (pool_at (j + 1))).
Proof.
  intros Hj Herr. unfold MAX_NR_QUEUE in Hj.
  unfold init_queue_body, pool_at.
  replace (Z.to_nat (MAX_NR_QUEUE - j))
    with (S (Z.to_nat (MAX_NR_QUEUE - (j + 1)))) by (unfold MAX_NR_QUEUE; lia).
  set (rest := replicate (Z.to_nat (MAX_NR_QUEUE - (j + 1))) nullptr).
  cbn [replicate]. fold rest.
  pose proof (length_created_queues j) as Hlen.
  rewrite array_write_ok, bind_ret
    by (rewrite length_app, Hlen; simpl; lia).
  rewrite (insert_middle _ _ _ _ _ (eq_sym Hlen)).
  unfold xnvme_queue_init. rewrite bind_assoc, bind_emit, bind_ret.
  rewrite created_queues_succ by lia.
  unfold init_err in Herr. unfold queue_handle at 1 2.
  destruct (w_queue_init w j) as [err q]. simpl in Herr. subst err.
  simpl snd.
  rewrite array_write_ok, bind_ret
    by (rewrite length_app, Hlen; simpl; lia).
  rewrite (insert_middle _ _ _ _ _ (eq_sym Hlen)).
  change (negb (0 =? 0)) with false. cbn iota. rewrite bind_ret.
  rewrite (array_read_lookup _ _ q), bind_ret
    by (lia || by apply list_lookup_middle).
  unfold trace, result, ret, queue_push. simpl fst. simpl snd.
  by rewrite <- app_assoc.
Qed.

Lemma init_queue_body_failed dev k :
  0 <= k < MAX_NR_QUEUE -> init_err k <> 0 ->
  init_queue_body w dev MAX_NR_QUEUE k (pool_at k)
  = (E_queue_init dev MAX_NR_QUEUE 0 k :: init_failed_events dev k, Return 1).
Proof.
  intros Hk Herr. unfold MAX_NR_QUEUE in Hk.
  unfold init_queue_body, pool_at.
  replace (Z.to_nat (MAX_NR_QUEUE - k))
    with (S (Z.to_nat (MAX_NR_QUEUE - (k + 1)))) by (unfold MAX_NR_QUEUE; lia).
  cbn [replicate].
  pose proof (length_created_queues k) as Hlen.
  rewrite array_write_ok, bind_ret
    by (rewrite length_app, Hlen; simpl; lia).
  rewrite (insert_middle _ _ _ _ _ (eq_sym Hlen)).
  unfold xnvme_queue_init. rewrite bind_assoc, bind_emit, bind_ret.
  unfold init_err in Herr.
  destruct (w_queue_init w k) as [err q]. simpl in Herr.
  rewrite array_write_ok, bind_ret
    by (rewrite length_app, Hlen; simpl; lia).
  destruct (Z.eqb_spec err 0) as [|_]; [done|]. reflexivity.
Qed.

Lemma always_below (n : nat) (i : Z) (j : Z) :
  i + Z.of_nat n <= MAX_NR_QUEUE -> i <= j < i + Z.of_nat n ->
  (fun _ : Z => true) j && (j <? MAX_NR_QUEUE) = true.
Proof. intros Hn Hj. simpl. apply Z.ltb_lt. lia. Qed.

Lemma main_init_queues_ok dev :
  (forall i, 0 <= i < MAX_NR_QUEUE -> init_err i = 0) ->
  main_init_queues w dev
  = (init_events dev MAX_NR_QUEUE ++ [Stdout ("Queues initialized" +:+ nl)],
     Normal (created_queues MAX_NR_QUEUE, created_queues MAX_NR_QUEUE)).
Proof.
  intros Hok. unfold main_init_queues.
  pose proof (for_loop_normal MAX_NR_QUEUE (fun _ => true)
    (init_queue_body w dev MAX_NR_QUEUE)
    (fun j => [E_queue_init dev MAX_NR_QUEUE 0 j]) pool_at
    (Z.to_nat MAX_NR_QUEUE) 0) as Hloop.
  change (pool_at 0) with (replicate (Z.to_nat MAX_NR_QUEUE) nullptr, @nil ptr)
    in Hloop.
  assert (Hguard : forall j, 0 <= j < 0 + Z.of_nat (Z.to_nat MAX_NR_QUEUE) ->
            (fun _ : Z => true) j && (j <? MAX_NR_QUEUE) = true)
    by (intros j Hj; by apply (always_below (Z.to_nat MAX_NR_QUEUE) 0)).
  assert (Hstop : (fun _ : Z => true) (0 + Z.of_nat (Z.to_nat MAX_NR_QUEUE))
            && (0 + Z.of_nat (Z.to_nat MAX_NR_QUEUE) <? MAX_NR_QUEUE) = false)
    by reflexivity.
  assert (Hbody : forall j, 0 <= j < 0 + Z.of_nat (Z.to_nat MAX_NR_QUEUE) ->
            init_queue_body w dev MAX_NR_QUEUE j (pool_at j)
            = ([E_queue_init dev MAX_NR_QUEUE 0 j], Normal (pool_at (j + 1)))).
  { intros j Hj. apply init_queue_body_ok; [|apply Hok];
      unfold MAX_NR_QUEUE in *; lia. }
  rewrite (bind_normal _ _ _ _ (Hloop Hguard Hstop Hbody)); clear Hloop.
  rewrite bind_emit, flat_map_single, !trace_pair, !result_pair.
  rewrite trace_ret, result_ret.
  change (0 + Z.of_nat (Z.to_nat MAX_NR_QUEUE)) with MAX_NR_QUEUE.
  change (Z.of_nat (Z.to_nat MAX_NR_QUEUE)) with MAX_NR_QUEUE.
  unfold pool_at, init_events.
  change (Z.to_nat (MAX_NR_QUEUE - MAX_NR_QUEUE)) with O.
  cbn [replicate]. by rewrite app_nil_r.
Qed.

Lemma main_init_queues_failed dev k :
  0 <= k < MAX_NR_QUEUE ->
  (forall i, 0 <= i < k -> init_err i = 0) -> init_err k <> 0 ->
  main_init_queues w dev
  = (init_events dev (k + 1) ++ init_failed_events dev k, Return 1).
Proof.
  intros Hk Hok Hfail. unfold main_init_queues.
  pose proof (for_loop_return MAX_NR_QUEUE (fun _ => true)
    (init_queue_body w dev MAX_NR_QUEUE)
    (fun j => [E_queue_init dev MAX_NR_QUEUE 0 j]) pool_at
    (Z.to_nat k) 0 (E_queue_init dev MAX_NR_QUEUE 0 k :: init_failed_events dev k)
    1) as Hloop.
  change (pool_at 0) with (replicate (Z.to_nat MAX_NR_QUEUE) nullptr, @nil ptr)
    in Hloop.
  assert (Hguard : forall j, 0 <= j <= 0 + Z.of_nat (Z.to_nat k) ->
            (fun _ : Z => true) j && (j <? MAX_NR_QUEUE) = true)
    by (intros j Hj; simpl; apply Z.ltb_lt; lia).
  assert (Hbody : forall j, 0 <= j < 0 + Z.of_nat (Z.to_nat k) ->
            init_queue_body w dev MAX_NR_QUEUE j (pool_at j)
            = ([E_queue_init dev MAX_NR_QUEUE 0 j], Normal (pool_at (j + 1))))
    by (intros j Hj; apply init_queue_body_ok; [|apply Hok]; lia).
  assert (Hret : init_queue_body w dev MAX_NR_QUEUE (0 + Z.of_nat (Z.to_nat k))
                   (pool_at (0 + Z.of_nat (Z.to_nat k)))
                 = (E_queue_init dev MAX_NR_QUEUE 0 k
                      :: init_failed_events dev k, Return 1)).
  { replace (0 + Z.of_nat (Z.to_nat k)) with k by lia.
    by apply init_queue_body_failed. }
  rewrite (bind_return _ _ _ _ (Hloop Hguard Hbody Hret)); clear Hloop.
  rewrite flat_map_single. unfold init_events.
  rewrite (seqZ_app 0 k 1), fmap_app by lia.
  rewrite <- app_assoc. replace (Z.of_nat (Z.to_nat k)) with k by lia.
  reflexivity.
Qed.

(** *** Queue termination loops (lines 136-138 and 196-201) *)

Lemma term_loop_quiet (queues_ : list ptr) :
  length queues_ = Z.to_nat MAX_NR_QUEUE ->
  for_loop MAX_NR_QUEUE (fun _ => true)
    (fun i (_ : unit) =>
       q <- array_read queues_ i ;; _ <- xnvme_queue_term w i q ;; ret tt) 0 tt
  = (flat_map (term_events false queues_) (seqZ 0 MAX_NR_QUEUE), Normal tt).
Proof.
  intros Hlen.
  pose proof (for_loop_normal MAX_NR_QUEUE (fun _ => true)
    (fun i (_ : unit) =>
       q <- array_read queues_ i ;; _ <- xnvme_queue_term w i q ;; ret tt)
    (term_events false queues_) (fun _ => tt) (Z.to_nat MAX_NR_QUEUE) 0) as Hloop.
  apply Hloop; clear Hloop.
  - intros j Hj. by apply (always_below (Z.to_nat MAX_NR_QUEUE) 0).
  - reflexivity.
  - intros j Hj. unfold term_events.
    destruct (lookup_lt_is_Some_2 queues_ (Z.to_nat j)) as [q Hq];
      [unfold MAX_NR_QUEUE in *; lia|].
    rewrite Hq, (array_read_lookup _ _ q), bind_ret by (done || lia).
    reflexivity.
Qed.

Lemma term_loop_warn (queues_ : list ptr) :
  length queues_ = Z.to_nat MAX_NR_QUEUE ->
  for_loop MAX_NR_QUEUE (fun _ => true)
    (fun i (_ : unit) =>
       q <- array_read queues_ i ;;
       err <- xnvme_queue_term w i q ;;
       if negb (err =? 0) then emit (term_warning i) else ret tt) 0 tt
  = (flat_map (term_events true queues_) (seqZ 0 MAX_NR_QUEUE), Normal tt).
Proof.
  intros Hlen.
  pose proof (for_loop_normal MAX_NR_QUEUE (fun _ => true)
    (fun i (_ : unit) =>
       q <- array_read queues_ i ;;
       err <- xnvme_queue_term w i q ;;
       if negb (err =? 0) then emit (term_warning i) else ret tt)
    (term_events true queues_) (fun _ => tt) (Z.to_nat MAX_NR_QUEUE) 0) as Hloop.
  apply Hloop; clear Hloop.
  - intros j Hj. by apply (always_below (Z.to_nat MAX_NR_QUEUE) 0).
  - reflexivity.
  - intros j Hj. unfold term_events.
    destruct (lookup_lt_is_Some_2 queues_ (Z.to_nat j)) as [q Hq];
      [unfold MAX_NR_QUEUE in *; lia|].
    rewrite Hq, (array_read_lookup _ _ q), bind_ret by (done || lia).
    unfold xnvme_queue_term. rewrite bind_assoc, bind_emit, bind_ret.
    cbn [andb]. by destruct (negb (w_queue_term w j =? 0)).
Qed.

(** A termination loop over [m] slots calls [xnvme_queue_term] once on
    each of the first [m] handles, in order, whatever the calls answer. *)
Lemma terminated_term_events warn (queues_ : list ptr) (m : nat) :
  (m <= length queues_)%nat ->
  terminated (flat_map (term_events warn queues_) (seqZ 0 (Z.of_nat m)))
  = take m queues_.
Proof.
  induction m as [|m IH]; intros Hm; [done|].
  destruct (lookup_lt_is_Some_2 queues_ m) as [q Hq]; [lia|].
  rewrite Nat2Z.inj_succ, <- Z.add_1_r, seqZ_app by lia.
  rewrite (take_S_r _ _ _ Hq), flat_map_app, terminated_app, IH by lia.
  f_equal. simpl. unfold term_events.
  replace (Z.to_nat (Z.of_nat 0 + (0 + Z.of_nat m))) with m by lia.
  rewrite Hq, app_nil_r. simpl.
  by destruct (warn && _).
Qed.

Lemma count_ev_none p t :
  Forall (fun e => p e = false) t -> count_ev p t = O.
Proof. induction 1 as [|e t He _ IH]; simpl; [done | by rewrite He, IH]. Qed.

Lemma term_events_kind warn (queues_ : list ptr) (l : list Z) :
  Forall (fun e => is_queue_term e = true \/ is_stderr e = true)
    (flat_map (term_events warn queues_) l).
Proof.
  induction l as [|i l IH]; simpl; [constructor|].
  apply Forall_app; split; [|done]. unfold term_events.
  destruct (queues_ !! Z.to_nat i); [|constructor].
  constructor; [simpl; by left|].
  destruct (warn && _); [|constructor].
  constructor; [simpl; by right | constructor].
Qed.

(** *** Buffer allocation (lines 133-141) *)

Lemma main_alloc_ok dev queues_ :
  w_buf_alloc w <> nullptr ->
  main_alloc w dev queues_ = ([E_buf_alloc dev BUF_SIZE], Normal (w_buf_alloc w)).
Proof.
  intros H. unfold main_alloc, xnvme_buf_alloc.
  rewrite bind_assoc, bind_emit, bind_ret.
  by destruct (Z.eqb_spec (w_buf_alloc w) nullptr).
Qed.

Lemma main_alloc_failed dev queues_ :
  length queues_ = Z.to_nat MAX_NR_QUEUE ->
  w_buf_alloc w = nullptr ->
  main_alloc w dev queues_ = (alloc_failed_events dev queues_, Return 1).
Proof.
  intros Hlen H. unfold main_alloc, xnvme_buf_alloc.
  rewrite bind_assoc, bind_emit, bind_ret, H.
  change (nullptr =? nullptr) with true. cbn iota.
  rewrite bind_assoc, bind_emit.
  rewrite bind_assoc, (bind_normal _ _ _ _ (term_loop_quiet queues_ Hlen)).
  reflexivity.
Qed.

(** *** Submission and drain (lines 144-169) *)

Lemma main_submit_run dev xqueue rest mo :
  main_submit w dev (xqueue :: rest) mo
  = (submit_events dev xqueue mo, Normal tt).
Proof.
  unfold main_submit, submit_events, send_warnings, callback_events,
    drain_warnings, xnvme_queue_drain, call_cb, send_event.
  cbn [queue_front queue_pop].
  unfold xnvme_queue_get_cmd_ctx, xnvme_dev_get_nsid, xnvme_nvm_mgmt_send.
  run_prog. fold (bound_ctx dev xqueue). fold nsid_of_device.
  destruct (w_nvm_mgmt_send w =? 0); cbn [negb]; run_prog;
    (destruct (w_cpl w) as [st|];
     [ cbn [ctx_cb bound_ctx ctx_cb_arg ctx_addr ctx_dev];
       fold (completed_ctx dev xqueue st); rewrite async_cb_run
     | ]);
    run_prog; destruct (w_queue_drain w <? 0); run_prog;
    cbn [app]; rewrite <- ?app_assoc, ?app_nil_r; reflexivity.
Qed.

(** *** Report and teardown (lines 171-205) *)

Lemma main_report_run mo r :
  main_report mo r = (report_events mo r, Normal tt).
Proof.
  unfold main_report, report_events. rewrite !bind_emit.
  rewrite (bind_normal _ _ [Stdout (if mo =? NVME_IOMS_MO_SUNGJIN
            then "Counters have been RESET" +:+ nl
            else "Counters remain UNCHANGED (read-only mode)" +:+ nl)] tt)
    by (by destruct (mo =? NVME_IOMS_MO_SUNGJIN)).
  by rewrite print_ruh_status_run, !trace_pair, !result_pair.
Qed.

Lemma main_cleanup_run dev buf queues_ :
  length queues_ = Z.to_nat MAX_NR_QUEUE ->
  main_cleanup w dev buf queues_ = (cleanup_events dev buf queues_, Return 0).
Proof.
  intros Hlen. unfold main_cleanup, xnvme_buf_free, xnvme_dev_close.
  rewrite bind_emit.
  rewrite (bind_normal _ _ _ _ (term_loop_warn queues_ Hlen)).
  reflexivity.
Qed.

(** *** Whole runs *)

Lemma length_created_all :
  length (created_queues MAX_NR_QUEUE) = Z.to_nat MAX_NR_QUEUE.
Proof. apply length_created_queues. Qed.

Lemma created_all_cons :
  created_queues MAX_NR_QUEUE
  = queue_handle 0 :: (queue_handle <$> seqZ 1 (MAX_NR_QUEUE - 1)).
Proof.
  unfold created_queues. by rewrite (seqZ_cons 0 MAX_NR_QUEUE).
Qed.

Lemma main_submit_created dev mo :
  main_submit w dev (created_queues MAX_NR_QUEUE) mo
  = (submit_events dev (queue_handle 0) mo, Normal tt).
Proof. rewrite created_all_cons. apply main_submit_run. Qed.

Lemma main_open_failed_run argv device mo mode_str :
  main_args argv = ([], Normal (device, mo, mode_str)) ->
  w_dev_open w device = nullptr ->
  main w argv
  = (banner_events device mo mode_str
     ++ E_dev_open device open_opts :: open_failed_events device, Return 1).
Proof.
  intros Hargs Hopen. unfold main.
  rewrite Hargs, bind_pair. cbn [app].
  by rewrite (bind_return _ _ _ _ (main_open_failed _ _ _ Hopen)).
Qed.

Lemma main_init_failed_run argv device mo mode_str k :
  main_args argv = ([], Normal (device, mo, mode_str)) ->
  device_opens device -> init_fails_at k ->
  main w argv
  = (open_events device mo mode_str
     ++ init_events (w_dev_open w device) (k + 1)
     ++ init_failed_events (w_dev_open w device) k, Return 1).
Proof.
  intros Hargs Hopen (Hk & Hok & Hfail). unfold main.
  rewrite Hargs, bind_pair. cbn [app].
  rewrite (bind_normal _ _ _ _ (main_open_ok _ _ _ Hopen)).
  rewrite (bind_return _ _ _ _ (main_init_queues_failed _ k Hk Hok Hfail)).
  by rewrite trace_pair, result_pair.
Qed.

Lemma main_alloc_failed_run argv device mo mode_str :
  main_args argv = ([], Normal (device, mo, mode_str)) ->
  device_opens device -> queues_created -> w_buf_alloc w = nullptr ->
  main w argv
  = (open_events device mo mode_str
     ++ pool_events (w_dev_open w device)
     ++ alloc_failed_events (w_dev_open w device)
          (created_queues MAX_NR_QUEUE), Return 1).
Proof.
  intros Hargs Hopen Hpool Hbuf. unfold main.
  rewrite Hargs, bind_pair. cbn [app].
  rewrite (bind_normal _ _ _ _ (main_open_ok _ _ _ Hopen)).
  rewrite (bind_normal _ _ _ _ (main_init_queues_ok _ Hpool)).
  rewrite (bind_return _ _ _ _
             (main_alloc_failed _ _ length_created_all Hbuf)).
  by rewrite !trace_pair, !result_pair.
Qed.

Lemma main_success_run argv device mo mode_str :
  main_args argv = ([], Normal (device, mo, mode_str)) ->
  setup_succeeds device ->
  main w argv
  = (open_events device mo mode_str
     ++ pool_events (w_dev_open w device)
     ++ [E_buf_alloc (w_dev_open w device) BUF_SIZE]
     ++ submit_events (w_dev_open w device) (queue_handle 0) mo
     ++ report_events mo (ruh_status_at_report w)
     ++ cleanup_events (w_dev_open w device) (w_buf_alloc w)
          (created_queues MAX_NR_QUEUE), Return 0).
Proof.
  intros Hargs (Hopen & Hpool & Hbuf). unfold main.
  rewrite Hargs, bind_pair. cbn [app].
  rewrite (bind_normal _ _ _ _ (main_open_ok _ _ _ Hopen)).
  rewrite (bind_normal _ _ _ _ (main_init_queues_ok _ Hpool)).
  rewrite (bind_normal _ _ _ _ (main_alloc_ok _ _ Hbuf)).
  rewrite (bind_normal _ _ _ _ (main_submit_created _ _)).
  rewrite (bind_normal _ _ _ _ (main_report_run _ _)).
  rewrite (main_cleanup_run _ _ _ length_created_all).
  by rewrite !trace_pair, !result_pair.
Qed.

(** If some queue fails to initialize, one of them is the first. *)
Lemma first_failure (n : nat) :
  (forall i, 0 <= i < Z.of_nat n -> init_err i = 0) \/
  (exists k, 0 <= k < Z.of_nat n /\
             (forall i, 0 <= i < k -> init_err i = 0) /\ init_err k <> 0).
Proof.
  induction n as [|n [IH|(k & Hk & Hok & Hfail)]].
  - left. lia.
  - destruct (Z.eq_dec (init_err (Z.of_nat n)) 0) as [Heq|Hne].
    + left. intros i Hi. destruct (Z.eq_dec i (Z.of_nat n)) as [->|]; [done|].
      apply IH. lia.
    + right. exists (Z.of_nat n). repeat split; [lia | lia | | done].
      intros i Hi. apply IH. lia.
  - right. exists k. repeat split; [lia | lia | done | done].
Qed.

Lemma pool_created_or_failed : queues_created \/ exists k, init_fails_at k.
Proof.
  destruct (first_failure (Z.to_nat MAX_NR_QUEUE)) as [H|(k & Hk & H)].
  - by left.
  - right. exists k. by split.
Qed.

End Phases.

(** ** Which events a phase can produce *)

Lemma absent_nil q : absent q [].
Proof. constructor. Qed.

Lemma absent_cons q e t : q e = false -> absent q t -> absent q (e :: t).
Proof. by constructor. Qed.

Lemma absent_app q t1 t2 : absent q t1 -> absent q t2 -> absent q (t1 ++ t2).
Proof. intros. by apply Forall_app. Qed.

Lemma absent_fmap {A} q (f : A -> event) (l : list A) :
  (forall x, q (f x) = false) -> absent q (f <$> l).
Proof. intros H. apply Forall_fmap, Forall_forall. intros x _. apply H. Qed.

Lemma absent_term_events w q warn queues_ l :
  (forall p, q (E_queue_term p) = false) -> (forall s, q (Stderr s) = false) ->
  absent q (flat_map (term_events w warn queues_) l).
Proof.
  intros Hterm Hprint.
  eapply Forall_impl; [apply term_events_kind|].
  intros [] [H|H]; simpl in H; try discriminate; auto.
Qed.

Lemma absent_not_elem q t e : absent q t -> q e = true -> e ∉ t.
Proof.
  intros Habs He Hin. unfold absent in Habs. rewrite Forall_forall in Habs.
  specialize (Habs e Hin). congruence.
Qed.

Lemma absent_terminated t : absent is_queue_term t -> terminated t = [].
Proof.
  induction 1 as [|e t He _ IH]; [done|]. by destruct e.
Qed.

Lemma absent_initialized t : absent is_queue_init t -> initialized t = [].
Proof.
  induction 1 as [|e t He _ IH]; [done|]. by destruct e.
Qed.

Lemma usage_events_stderr p : Forall (fun e => is_stderr e = true) (usage_events p).
Proof. repeat constructor. Qed.

Lemma absent_usage q p :
  (forall s, q (Stderr s) = false) -> absent q (usage_events p).
Proof.
  intros H. eapply Forall_impl; [apply usage_events_stderr|].
  intros [] He; simpl in He; try discriminate; auto.
Qed.

Lemma absent_ruh_rows q r :
  (forall s, q (Stdout s) = false) -> absent q (ruh_rows r).
Proof. intros H. apply absent_fmap. intros d. apply H. Qed.

(** Decides [absent q t] for a trace built from the phases above, when
    [q] is one of the [is_...] tests. *)
Ltac solve_absent :=
  repeat first
    [ apply absent_nil
    | apply absent_cons; [reflexivity|]
    | apply absent_app
    | apply absent_usage; intros; reflexivity
    | apply absent_ruh_rows; intros; reflexivity
    | apply absent_fmap; intros; reflexivity
    | apply absent_term_events; intros; reflexivity
    | rewrite async_cb_run, trace_pair
    | match goal with
      | |- absent _ (if ?c then _ else _) => destruct c
      | |- absent _ (match ?c with Some _ => _ | None => _ end) => destruct c
      end
    | progress unfold open_events, pool_events, banner_events,
        open_failed_events, opened_events, init_events, init_failed_events,
        alloc_failed_events, submit_events, send_warnings, callback_events,
        drain_warnings, report_events, ruh_header, cleanup_events, send_event,
        unknown_option_event, term_warning ].

Lemma argv_default_run :
  device_run argv_default "/dev/nvme0n1" NVME_IOMS_MO_SUNGJIN "RESET".
Proof. constructor. Qed.

Lemma argv_read_only_run :
  device_run argv_read_only "/dev/nvme0n1" NVME_IOMS_MO_SUNGJIN_READONLY
    "READ-ONLY".
Proof. constructor. Qed.

Lemma argv_bogus_bad : bad_arguments argv_bogus.
Proof.
  right; right. split; [done|]. exists "--bogus". split; [done|].
  unfold known_flags. rewrite !elem_of_cons, elem_of_nil.
  by intros [?|[?|[?|[?|?]]]].
Qed.

Lemma w_ok_setup device : setup_succeeds w_ok device.
Proof. repeat split; try done. Qed.

Lemma w_warnings_setup device : setup_succeeds w_warnings device.
Proof. repeat split; try done. Qed.

Lemma w_queue_1_fails_at_1 : init_fails_at w_queue_1_fails 1.
Proof.
  repeat split; try done. intros i Hi. by replace i with 0 by lia.
Qed.

(** ** Failure of a queue initialization (lines 123-127) *)

Lemma initialized_init_events dev n :
  initialized (init_events dev n) = seqZ 0 n.
Proof.
  unfold init_events. generalize (seqZ 0 n). intros l.
  induction l as [|i l IH]; csimpl; [done | by rewrite IH].
Qed.

(** When the initialization of queue [k] fails, [main] prints the error,
    closes the device and returns 1: [xnvme_queue_term] is not called on
    any of the queues 0..k-1 created before. *)
Lemma init_failure_terminates_nothing w argv device mo mode_str k :
  device_run argv device mo mode_str ->
  device_opens w device -> init_fails_at w k ->
  exit_status (main w argv) = Some 1 /\
  initialized (trace (main w argv)) = seqZ 0 (k + 1) /\
  terminated (trace (main w argv)) = [].
Proof.
  intros Hrun Hopen Hfail.
  rewrite (main_init_failed_run w argv device mo mode_str k
             (main_args_device_run _ _ _ _ Hrun) Hopen Hfail).
  unfold exit_status. rewrite trace_pair, result_pair.
  destruct Hfail as ((Hk0 & _) & _). repeat split.
  - rewrite !initialized_app.
    assert (H1 : initialized (open_events w device mo mode_str) = [])
      by (apply absent_initialized; solve_absent).
    assert (H2 : initialized (init_failed_events (w_dev_open w device) k) = [])
      by (apply absent_initialized; solve_absent).
    rewrite H1, H2, app_nil_r. cbn [app]. apply initialized_init_events.
  - apply absent_terminated. solve_absent.
Qed.

Lemma init_failure_terminates_nothing_witness :
  initialized (trace (main w_queue_1_fails argv_default)) = [0; 1] /\
  terminated (trace (main w_queue_1_fails argv_default)) = [].
Proof.
  destruct (init_failure_terminates_nothing w_queue_1_fails argv_default
              "/dev/nvme0n1" NVME_IOMS_MO_SUNGJIN "RESET" 1
              argv_default_run (ltac:(discriminate)) w_queue_1_fails_at_1)
    as (_ & Hinit & Hterm).
  split; [exact Hinit | exact Hterm].
Defined.

(** C1 (the code departs from the claim): queue 0 is created (handle
    2000), the initialization of queue 1 fails.  The run initializes slots
    0 and 1, returns exit status 1, and its trace holds no call of
    [xnvme_queue_term] at all: queue 0 is not terminated before the error
    return.  The sibling error path for a failed buffer allocation, in the
    same world but for the allocation, does terminate all 128 queues before
    it closes the device and returns 1. *)
Theorem queue_init_failure_leaves_queue_0_unterminated :
  let t := trace (main w_queue_1_fails argv_default) in
  exit_status (main w_queue_1_fails argv_default) = Some 1 /\
  initialized t = [0; 1] /\
  init_err w_queue_1_fails 0 = 0 /\ queue_handle w_queue_1_fails 0 = 2000 /\
  terminated t = [] /\
  last t = Some (E_dev_close 1000) /\
  exit_status (main w_no_buffer argv_default) = Some 1 /\
  terminated (trace (main w_no_buffer argv_default))
    = created_queues w_no_buffer MAX_NR_QUEUE.
Proof. vm_compute. repeat split. Qed.

(** ** Exit status *)

Lemma term_warning_printed w (queues_ : list ptr) (i : Z) :
  length queues_ = Z.to_nat MAX_NR_QUEUE ->
  0 <= i < MAX_NR_QUEUE -> w_queue_term w i <> 0 ->
  term_warning i ∈ flat_map (term_events w true queues_) (seqZ 0 MAX_NR_QUEUE).
Proof.
  intros Hlen Hi Herr. apply list_elem_of_In, in_flat_map.
  exists i. split; [apply list_elem_of_In, elem_of_seqZ; lia|].
  unfold term_events.
  destruct (lookup_lt_is_Some_2 queues_ (Z.to_nat i)) as [q ->];
    [unfold MAX_NR_QUEUE in *; lia|].
  destruct (Z.eqb_spec (w_queue_term w i) 0); [done|]. simpl. auto.
Qed.

Lemma success_warnings w argv device mo mode_str :
  device_run argv device mo mode_str -> setup_succeeds w device ->
  (w_nvm_mgmt_send w <> 0 -> send_warning_event w ∈ trace (main w argv)) /\
  (w_queue_drain w < 0 -> drain_warning_event w ∈ trace (main w argv)) /\
  (forall i, 0 <= i < MAX_NR_QUEUE -> w_queue_term w i <> 0 ->
     term_warning i ∈ trace (main w argv)).
Proof.
  intros Hrun Hsetup.
  rewrite (main_success_run w argv device mo mode_str
             (main_args_device_run _ _ _ _ Hrun) Hsetup), trace_pair.
  repeat split.
  - intros Herr. rewrite !elem_of_app. do 3 right. left.
    unfold submit_events, send_warnings.
    destruct (Z.eqb_spec (w_nvm_mgmt_send w) 0); [done|].
    rewrite !elem_of_app, !elem_of_cons. right. left. by left.
  - intros Herr. rewrite !elem_of_app. do 3 right. left.
    unfold submit_events, drain_warnings.
    destruct (Z.ltb_spec (w_queue_drain w) 0); [|lia].
    rewrite !elem_of_app, !elem_of_cons, !elem_of_app. do 4 right.
    by apply list_elem_of_singleton.
  - intros i Hi Herr. rewrite !elem_of_app. do 5 right.
    unfold cleanup_events. rewrite elem_of_cons, elem_of_app. right. left.
    apply term_warning_printed; [apply length_created_all | done | done].
Qed.

(** C2: a run that goes on to the device (a device path, alone or with
    --reset or --read-only) and whose device open, 128 queue
    initializations and buffer allocation all succeed returns exit status 0,
    whatever the submission, the drain and the 128 queue terminations
    answer; a rejected submission, a negative drain result and each failed
    termination only add their warning to stderr.  If the device open, some
    queue initialization or the buffer allocation fails, the exit status is
    1, and so it is for a wrong argument count or an unknown flag. *)
Theorem exit_status_by_setup (w : world) (argv : list string) :
  (forall device mo mode_str,
     device_run argv device mo mode_str -> setup_succeeds w device ->
     exit_status (main w argv) = Some 0 /\
     (w_nvm_mgmt_send w <> 0 -> send_warning_event w ∈ trace (main w argv)) /\
     (w_queue_drain w < 0 -> drain_warning_event w ∈ trace (main w argv)) /\
     (forall i, 0 <= i < MAX_NR_QUEUE -> w_queue_term w i <> 0 ->
        term_warning i ∈ trace (main w argv))) /\
  (forall device mo mode_str,
     device_run argv device mo mode_str ->
     w_dev_open w device = nullptr
     \/ (exists i, 0 <= i < MAX_NR_QUEUE /\ init_err w i <> 0)
     \/ w_buf_alloc w = nullptr ->
     exit_status (main w argv) = Some 1) /\
  (bad_arguments argv -> exit_status (main w argv) = Some 1).
Proof.
  split; [|split].
  - intros device mo mode_str Hrun Hsetup.
    split; [|by apply (success_warnings w argv device mo mode_str)].
    by rewrite (main_success_run w argv device mo mode_str
                  (main_args_device_run _ _ _ _ Hrun) Hsetup).
  - intros device mo mode_str Hrun Hfail.
    pose proof (main_args_device_run _ _ _ _ Hrun) as Hargs.
    destruct (Z.eq_dec (w_dev_open w device) nullptr) as [Hopen|Hopen].
    { by rewrite (main_open_failed_run w argv device mo mode_str Hargs Hopen). }
    destruct (pool_created_or_failed w) as [Hpool|[k Hk]].
    2: { by rewrite (main_init_failed_run w argv device mo mode_str k
                       Hargs Hopen Hk). }
    destruct Hfail as [Hfail|[(i & Hi & Hfail)|Hfail]].
    + done.
    + by specialize (Hpool i Hi).
    + by rewrite (main_alloc_failed_run w argv device mo mode_str
                    Hargs Hopen Hpool Hfail).
  - intros Hbad. unfold main.
    destruct (main_args_bad argv Hbad) as (t & Hargs & _).
    by rewrite (bind_return _ _ _ _ Hargs).
Qed.

Lemma exit_status_by_setup_witness :
  (exit_status (main w_warnings argv_read_only) = Some 0 /\
   send_warning_event w_warnings ∈ trace (main w_warnings argv_read_only) /\
   drain_warning_event w_warnings ∈ trace (main w_warnings argv_read_only) /\
   term_warning 127 ∈ trace (main w_warnings argv_read_only)) /\
  exit_status (main w_no_device argv_default) = Some 1 /\
  exit_status (main w_queue_1_fails argv_default) = Some 1 /\
  exit_status (main w_no_buffer argv_default) = Some 1 /\
  exit_status (main w_ok argv_bogus) = Some 1.
Proof.
  pose proof (proj1 (exit_status_by_setup w_warnings argv_read_only)) as Hok.
  specialize (Hok "/dev/nvme0n1" NVME_IOMS_MO_SUNGJIN_READONLY "READ-ONLY").
  specialize (Hok argv_read_only_run (w_warnings_setup _)).
  destruct Hok as (H0 & Hsend & Hdrain & Hterm).
  pose proof (proj1 (proj2 (exit_status_by_setup w_no_device argv_default)))
    as Hopen.
  specialize (Hopen "/dev/nvme0n1" NVME_IOMS_MO_SUNGJIN "RESET" argv_default_run).
  pose proof (proj1 (proj2 (exit_status_by_setup w_queue_1_fails argv_default)))
    as Hinit.
  specialize (Hinit "/dev/nvme0n1" NVME_IOMS_MO_SUNGJIN "RESET" argv_default_run).
  pose proof (proj1 (proj2 (exit_status_by_setup w_no_buffer argv_default)))
    as Hbuf.
  specialize (Hbuf "/dev/nvme0n1" NVME_IOMS_MO_SUNGJIN "RESET" argv_default_run).
  pose proof (proj2 (proj2 (exit_status_by_setup w_ok argv_bogus))
                argv_bogus_bad) as Hbad.
  split; [split; [exact H0|]|].
  - split; [apply Hsend; discriminate|].
    split; [apply Hdrain; reflexivity|].
    apply Hterm; [split; [discriminate | reflexivity] | discriminate].
  - split; [apply Hopen; left; reflexivity|].
    split; [apply Hinit; right; left; exists 1;
            split; [split; [discriminate | reflexivity] | discriminate]|].
    split; [apply Hbuf; right; right; reflexivity | exact Hbad].
Defined.

(** ** Queue pool: creation and teardown *)

Lemma initialized_success w device mo mode_str :
  initialized
    (open_events w device mo mode_str
     ++ pool_events (w_dev_open w device)
     ++ [E_buf_alloc (w_dev_open w device) BUF_SIZE]
     ++ submit_events w (w_dev_open w device) (queue_handle w 0) mo
     ++ report_events mo (ruh_status_at_report w)
     ++ cleanup_events w (w_dev_open w device) (w_buf_alloc w)
          (created_queues w MAX_NR_QUEUE))
  = seqZ 0 MAX_NR_QUEUE.
Proof.
  rewrite !initialized_app.
  assert (H1 : initialized (open_events w device mo mode_str) = [])
    by (apply absent_initialized; solve_absent).
  assert (H2 : initialized
                 (submit_events w (w_dev_open w device) (queue_handle w 0) mo)
               = [])
    by (apply absent_initialized; solve_absent).
  assert (H3 : initialized (report_events mo (ruh_status_at_report w)) = [])
    by (apply absent_initialized; solve_absent).
  assert (H4 : initialized
                 (cleanup_events w (w_dev_open w device) (w_buf_alloc w)
                    (created_queues w MAX_NR_QUEUE)) = [])
    by (apply absent_initialized; solve_absent).
  rewrite H1, H2, H3, H4. unfold pool_events.
  rewrite initialized_app, initialized_init_events. cbn [initialized app].
  by rewrite !app_nil_r.
Qed.

Lemma terminated_cleanup w dev buf :
  terminated (cleanup_events w dev buf (created_queues w MAX_NR_QUEUE))
  = created_queues w MAX_NR_QUEUE.
Proof.
  unfold cleanup_events. cbn [terminated]. rewrite terminated_app.
  cbn [terminated]. rewrite app_nil_r.
  pose proof (terminated_term_events w true (created_queues w MAX_NR_QUEUE)
                128) as H.
  change (Z.of_nat 128) with MAX_NR_QUEUE in H.
  rewrite H by (rewrite length_created_all; done).
  apply take_ge. rewrite length_created_all. done.
Qed.

Lemma terminated_before_cleanup w device mo mode_str :
  terminated
    (open_events w device mo mode_str
     ++ pool_events (w_dev_open w device)
     ++ [E_buf_alloc (w_dev_open w device) BUF_SIZE]
     ++ submit_events w (w_dev_open w device) (queue_handle w 0) mo
     ++ report_events mo (ruh_status_at_report w)) = [].
Proof. apply absent_terminated. solve_absent. Qed.

(** C4: on every run whose setup succeeds, [xnvme_queue_init] is called
    exactly 128 times, once for each slot 0..127 in order, and
    [xnvme_queue_term] is called exactly 128 times, all of them in the
    teardown (after the report), once on the handle of each created queue in
    slot order, whatever the individual terminations answer; each failed
    termination adds its warning and the loop goes on. *)
Theorem pool_created_and_torn_down (w : world) (argv : list string)
    (device : string) (mo : Z) (mode_str : string) :
  device_run argv device mo mode_str -> setup_succeeds w device ->
  let t := trace (main w argv) in
  initialized t = seqZ 0 MAX_NR_QUEUE /\
  length (initialized t) = 128%nat /\
  (exists before,
     t = before ++ cleanup_events w (w_dev_open w device) (w_buf_alloc w)
                     (created_queues w MAX_NR_QUEUE)
     /\ terminated before = []) /\
  terminated t = created_queues w MAX_NR_QUEUE /\
  length (terminated t) = 128%nat /\
  (forall i, 0 <= i < MAX_NR_QUEUE ->
     terminated t !! Z.to_nat i = Some (queue_handle w i)) /\
  (forall i, 0 <= i < MAX_NR_QUEUE -> w_queue_term w i <> 0 ->
     term_warning i ∈ t).
Proof.
  intros Hrun Hsetup t.
  pose proof (success_warnings w argv device mo mode_str Hrun Hsetup)
    as (_ & _ & Hwarn).
  fold t in Hwarn. revert Hwarn. unfold t. clear t.
  rewrite (main_success_run w argv device mo mode_str
             (main_args_device_run _ _ _ _ Hrun) Hsetup), trace_pair.
  intros Hwarn.
  assert (Hterm : terminated
    (open_events w device mo mode_str
     ++ pool_events (w_dev_open w device)
     ++ [E_buf_alloc (w_dev_open w device) BUF_SIZE]
     ++ submit_events w (w_dev_open w device) (queue_handle w 0) mo
     ++ report_events mo (ruh_status_at_report w)
     ++ cleanup_events w (w_dev_open w device) (w_buf_alloc w)
          (created_queues w MAX_NR_QUEUE))
    = created_queues w MAX_NR_QUEUE).
  { pose proof (terminated_before_cleanup w device mo mode_str) as Hb.
    rewrite !terminated_app in *. rewrite terminated_cleanup.
    destruct (app_eq_nil _ _ Hb) as [-> Hb1].
    destruct (app_eq_nil _ _ Hb1) as [-> Hb2].
    destruct (app_eq_nil _ _ Hb2) as [-> Hb3].
    destruct (app_eq_nil _ _ Hb3) as [-> ->]. done. }
  rewrite initialized_success, Hterm.
  split; [reflexivity|]. split; [by rewrite length_seqZ|].
  split; [|split; [reflexivity|split; [|split]]].
  - exists (open_events w device mo mode_str
            ++ pool_events (w_dev_open w device)
            ++ [E_buf_alloc (w_dev_open w device) BUF_SIZE]
            ++ submit_events w (w_dev_open w device) (queue_handle w 0) mo
            ++ report_events mo (ruh_status_at_report w)).
    split; [by rewrite <- !app_assoc | apply terminated_before_cleanup].
  - apply length_created_all.
  - intros i Hi. by apply created_queues_lookup.
  - exact Hwarn.
Qed.

Lemma pool_created_and_torn_down_witness :
  length (terminated (trace (main w_warnings argv_read_only))) = 128%nat /\
  term_warning 5 ∈ trace (main w_warnings argv_read_only).
Proof.
  pose proof (pool_created_and_torn_down w_warnings argv_read_only
                "/dev/nvme0n1" NVME_IOMS_MO_SUNGJIN_READONLY "READ-ONLY"
                argv_read_only_run (w_warnings_setup _))
    as (_ & _ & _ & _ & Hlen & _ & Hwarn).
  split; [exact Hlen|].
  apply Hwarn; [split; [discriminate | reflexivity] | discriminate].
Defined.

(** ** Every run is one of seven paths *)

Lemma argv_cases (argv : list string) :
  bad_arguments argv
  \/ (exists p device flag,
        argv = [p; device; flag] /\ (flag = "-h" \/ flag = "--help"))
  \/ (exists device mo mode_str, device_run argv device mo mode_str).
Proof.
  destruct argv as [|p [|device [|flag [|x rest]]]].
  - left. left. unfold argc. simpl. lia.
  - left. left. unfold argc. simpl. lia.
  - right. right. eexists _, _, _. constructor.
  - destruct (decide (flag = "--reset")) as [->|H1].
    { right. right. eexists _, _, _. apply run_reset. }
    destruct (decide (flag = "--read-only")) as [->|H2].
    { right. right. eexists _, _, _. apply run_read_only. }
    destruct (decide (flag = "-h")) as [->|H3].
    { right. left. eexists _, _, _. eauto. }
    destruct (decide (flag = "--help")) as [->|H4].
    { right. left. eexists _, _, _. eauto. }
    left. right. right. split; [done|]. exists flag. split; [done|].
    unfold known_flags. rewrite !elem_of_cons, elem_of_nil. tauto.
  - left. right. left. unfold argc. simpl length. lia.
Qed.

Lemma main_help w p device flag :
  flag = "-h" \/ flag = "--help" ->
  main w [p; device; flag] = (usage_events (Some p), Return 0).
Proof.
  intros Hflag. unfold main.
  apply bind_return. rewrite main_args_three. by destruct Hflag as [->| ->].
Qed.

Lemma main_bad w argv :
  bad_arguments argv ->
  exists t, main w argv = (t ++ usage_events (argv !! 0%nat), Return 1) /\
    ((argc argv <> 3 /\ t = []) \/
     exists flag, argv !! 2%nat = Some flag /\ argc argv = 3 /\
                  t = [unknown_option_event flag]).
Proof.
  intros Hbad. destruct (main_args_bad argv Hbad) as (t & Hargs & Ht).
  exists t. split; [|done]. unfold main. by apply bind_return.
Qed.

Lemma main_paths (w : world) (argv : list string) : run_path w argv.
Proof.
  destruct (argv_cases argv)
    as [Hbad|[(p & device & flag & -> & Hflag)|(device & mo & ms & Hrun)]].
  - destruct (main_bad w argv Hbad) as (t & Hmain & Ht).
    eapply path_arguments; [exact Hmain|].
    apply Forall_app. split; [|apply usage_events_stderr].
    destruct Ht as [[_ ->]|(flag & _ & _ & ->)]; repeat constructor.
  - eapply path_arguments; [by apply main_help | apply usage_events_stderr].
  - pose proof (main_args_device_run _ _ _ _ Hrun) as Hargs.
    destruct (Z.eq_dec (w_dev_open w device) nullptr) as [Hopen|Hopen].
    { eapply path_open_failed; [exact Hrun | exact Hopen |].
      by apply main_open_failed_run. }
    destruct (pool_created_or_failed w) as [Hpool|[k Hk]].
    2: { eapply path_init_failed; [exact Hrun | exact Hopen | exact Hk |].
         by apply main_init_failed_run. }
    destruct (Z.eq_dec (w_buf_alloc w) nullptr) as [Hbuf|Hbuf].
    { eapply path_alloc_failed; [exact Hrun | done | done | done |].
      by apply main_alloc_failed_run. }
    eapply path_success; [exact Hrun | done |].
    by apply main_success_run.
Qed.

Lemma absent_of_stderr q t :
  (forall s, q (Stderr s) = false) ->
  Forall (fun e => is_stderr e = true) t -> absent q t.
Proof.
  intros Hq Ht. eapply Forall_impl; [exact Ht|].
  intros [] He; simpl in He; try discriminate; auto.
Qed.

(** ** The buffer and the response region *)

Lemma elem_of_app_absent_l q (e : event) t1 t2 :
  q e = true -> absent q t1 -> e ∈ t1 ++ t2 -> e ∈ t2.
Proof.
  intros He Habs [Hin|Hin]%elem_of_app; [|done].
  by destruct (absent_not_elem q t1 e Habs He).
Qed.

Lemma elem_of_app_absent_r q (e : event) t1 t2 :
  q e = true -> absent q t2 -> e ∈ t1 ++ t2 -> e ∈ t1.
Proof.
  intros He Habs [Hin|Hin]%elem_of_app; [done|].
  by destruct (absent_not_elem q t2 e Habs He).
Qed.

(** The only management command of a run is the one of line 159. *)
Lemma mgmt_send_in_success w device mo mode_str (e : event) :
  is_mgmt_send e = true ->
  e ∈ open_events w device mo mode_str
      ++ pool_events (w_dev_open w device)
      ++ [E_buf_alloc (w_dev_open w device) BUF_SIZE]
      ++ submit_events w (w_dev_open w device) (queue_handle w 0) mo
      ++ report_events mo (ruh_status_at_report w)
      ++ cleanup_events w (w_dev_open w device) (w_buf_alloc w)
           (created_queues w MAX_NR_QUEUE) ->
  e = send_event w (w_dev_open w device) (queue_handle w 0) mo.
Proof.
  intros He Hin.
  apply (elem_of_app_absent_l is_mgmt_send) in Hin; [|done|solve_absent].
  apply (elem_of_app_absent_l is_mgmt_send) in Hin; [|done|solve_absent].
  apply (elem_of_app_absent_l is_mgmt_send) in Hin; [|done|solve_absent].
  rewrite app_assoc in Hin.
  apply (elem_of_app_absent_r is_mgmt_send) in Hin; [|done|solve_absent].
  apply (elem_of_app_absent_r is_mgmt_send) in Hin; [|done|solve_absent].
  unfold submit_events in Hin.
  rewrite (app_assoc _ (send_warnings w)) in Hin.
  replace (([E_queue_get_cmd_ctx (queue_handle w 0);
             E_dev_get_nsid (w_dev_open w device);
             Stdout ("NSID: " +:+ fmt_d (nsid_of_device w) +:+ nl);
             Stdout (nl +:+ "Sending IO Management Send command (MO=0x"
                     +:+ fmt_x mo +:+ ")..." +:+ nl);
             send_event w (w_dev_open w device) (queue_handle w 0) mo]
            ++ send_warnings w))
    with ([E_queue_get_cmd_ctx (queue_handle w 0);
           E_dev_get_nsid (w_dev_open w device);
           Stdout ("NSID: " +:+ fmt_d (nsid_of_device w) +:+ nl);
           Stdout (nl +:+ "Sending IO Management Send command (MO=0x"
                   +:+ fmt_x mo +:+ ")..." +:+ nl)]
          ++ [send_event w (w_dev_open w device) (queue_handle w 0) mo]
          ++ send_warnings w) in Hin by reflexivity.
  rewrite <- !app_assoc in Hin.
  apply (elem_of_app_absent_l is_mgmt_send) in Hin; [|done|solve_absent].
  apply (elem_of_app_absent_r is_mgmt_send) in Hin; [|done|solve_absent].
  by apply list_elem_of_singleton in Hin.
Qed.

Lemma buf_alloc_in_success w device mo mode_str (e : event) :
  is_buf_alloc e = true ->
  e ∈ open_events w device mo mode_str
      ++ pool_events (w_dev_open w device)
      ++ [E_buf_alloc (w_dev_open w device) BUF_SIZE]
      ++ submit_events w (w_dev_open w device) (queue_handle w 0) mo
      ++ report_events mo (ruh_status_at_report w)
      ++ cleanup_events w (w_dev_open w device) (w_buf_alloc w)
           (created_queues w MAX_NR_QUEUE) ->
  e = E_buf_alloc (w_dev_open w device) BUF_SIZE.
Proof.
  intros He Hin.
  apply (elem_of_app_absent_l is_buf_alloc) in Hin; [|done|solve_absent].
  apply (elem_of_app_absent_l is_buf_alloc) in Hin; [|done|solve_absent].
  apply (elem_of_app_absent_r is_buf_alloc) in Hin; [|done|solve_absent].
  by apply list_elem_of_singleton in Hin.
Qed.

(** C5: on every run of [main], if the buffer allocation is reached and
    succeeds, the trace splits around exactly one [xnvme_buf_free] of that
    buffer on that device, which comes after the allocation and before the
    one [xnvme_dev_close] of the device: no other free anywhere, no close
    before it.  And on every run each management command is given the
    address of the local [ruh_status] with its size as response region,
    never a heap pointer such as the allocated buffer. *)
Theorem buffer_freed_once_before_close_and_unused (w : world)
    (argv : list string) :
  let t := trace (main w argv) in
  (forall dev n, E_buf_alloc dev n ∈ t -> w_buf_alloc w <> nullptr ->
     exists t1 t2 t3,
       t = t1 ++ E_buf_free dev (w_buf_alloc w) :: t2 ++ E_dev_close dev :: t3 /\
       E_buf_alloc dev n ∈ t1 /\
       absent is_buf_free t1 /\ absent is_buf_free t2 /\ absent is_buf_free t3 /\
       absent is_dev_close t1 /\ absent is_dev_close t2 /\
       absent is_dev_close t3) /\
  (forall ctx nsid mo mos dbuf n,
     E_nvm_mgmt_send ctx nsid mo mos dbuf n ∈ t ->
     dbuf = addr_of_ruh_status /\ n = sizeof_ruh_status /\
     forall p, dbuf <> addr_heap p).
Proof.
  intros t. unfold t. clear t.
  destruct (main_paths w argv)
    as [t c Hmain Hstderr
       | device mo ms Hrun Hopen Hmain
       | device mo ms k Hrun Hopen Hfail Hmain
       | device mo ms Hrun Hopen Hpool Hbuf Hmain
       | device mo ms Hrun Hsetup Hmain];
    rewrite Hmain, trace_pair; clear Hmain.
  - split.
    + intros dev n Hin _. exfalso. revert Hin.
      apply (absent_not_elem is_buf_alloc); [|done].
      by apply absent_of_stderr.
    + intros ctx nsid mo mos dbuf n Hin. exfalso. revert Hin.
      apply (absent_not_elem is_mgmt_send); [|done].
      by apply absent_of_stderr.
  - split.
    + intros dev n Hin _. exfalso. revert Hin.
      apply (absent_not_elem is_buf_alloc); [solve_absent | done].
    + intros ctx nsid mo' mos dbuf n Hin. exfalso. revert Hin.
      apply (absent_not_elem is_mgmt_send); [solve_absent | done].
  - split.
    + intros dev n Hin _. exfalso. revert Hin.
      apply (absent_not_elem is_buf_alloc); [solve_absent | done].
    + intros ctx nsid mo' mos dbuf n Hin. exfalso. revert Hin.
      apply (absent_not_elem is_mgmt_send); [solve_absent | done].
  - split.
    + by intros dev n _ Hne.
    + intros ctx nsid mo' mos dbuf n Hin. exfalso. revert Hin.
      apply (absent_not_elem is_mgmt_send); [solve_absent | done].
  - split.
    + intros dev n Hin _.
      pose proof (buf_alloc_in_success w device mo ms (E_buf_alloc dev n)
                    eq_refl Hin) as Heq.
      injection Heq as -> ->.
      exists (open_events w device mo ms
              ++ pool_events (w_dev_open w device)
              ++ [E_buf_alloc (w_dev_open w device) BUF_SIZE]
              ++ submit_events w (w_dev_open w device) (queue_handle w 0) mo
              ++ report_events mo (ruh_status_at_report w)),
        (flat_map (term_events w true (created_queues w MAX_NR_QUEUE))
           (seqZ 0 MAX_NR_QUEUE)),
        [Stdout (nl +:+ "Done." +:+ nl)].
      split; [by rewrite <- !app_assoc|].
      split; [rewrite !elem_of_app, list_elem_of_singleton; auto|].
      repeat split; solve_absent.
    + intros ctx nsid mo' mos dbuf n Hin.
      pose proof (mgmt_send_in_success w device mo ms
                    (E_nvm_mgmt_send ctx nsid mo' mos dbuf n) eq_refl Hin)
        as Heq.
      unfold send_event in Heq. injection Heq as _ _ _ _ -> ->.
      repeat split; discriminate.
Qed.

Lemma buffer_freed_once_before_close_and_unused_witness :
  exists t1 t2 t3,
    trace (main w_ok argv_default)
    = t1 ++ E_buf_free 1000 3000 :: t2 ++ E_dev_close 1000 :: t3 /\
    absent is_buf_free t1 /\ absent is_buf_free t2 /\ absent is_buf_free t3 /\
    absent is_dev_close t1 /\ absent is_dev_close t2.
Proof.
  destruct (proj1 (buffer_freed_once_before_close_and_unused w_ok argv_default)
              1000 BUF_SIZE) as (t1 & t2 & t3 & Ht & _ & H1 & H2 & H3 & H4 & H5 & _).
  - apply (list_elem_of_lookup_2 _ 138). vm_compute. reflexivity.
  - discriminate.
  - exists t1, t2, t3. repeat split; assumption.
Defined.

(** ** The management command *)

Lemma device_run_mo argv device mo mode_str :
  device_run argv device mo mode_str ->
  ((length argv = 2%nat \/ argv !! 2%nat = Some "--reset") ->
   mo = NVME_IOMS_MO_SUNGJIN) /\
  (argv !! 2%nat = Some "--read-only" -> mo = NVME_IOMS_MO_SUNGJIN_READONLY) /\
  (mo = NVME_IOMS_MO_SUNGJIN \/ mo = NVME_IOMS_MO_SUNGJIN_READONLY).
Proof.
  destruct 1; (split; [|split]); auto; try discriminate.
  intros [H|H]; discriminate.
Qed.

(** C6: on every run that reaches the submission, the management command
    is sent once, with operation code 0x02 when no flag or --reset was
    given and 0x10 when --read-only was given, with select field 1, and
    with the namespace id that [xnvme_dev_get_nsid] returned for the device
    that was opened; no management command with other parameters is sent. *)
Theorem management_command_parameters (w : world) (argv : list string)
    (device : string) (mo : Z) (mode_str : string) :
  device_run argv device mo mode_str -> setup_succeeds w device ->
  let t := trace (main w argv) in
  ((length argv = 2%nat \/ argv !! 2%nat = Some "--reset") -> mo = 0x02) /\
  (argv !! 2%nat = Some "--read-only" -> mo = 0x10) /\
  E_dev_get_nsid (w_dev_open w device) ∈ t /\
  (exists ctx, ctx_dev ctx = w_dev_open w device /\
     E_nvm_mgmt_send ctx (w_dev_get_nsid w mod 2 ^ 32) mo 1
       addr_of_ruh_status sizeof_ruh_status ∈ t) /\
  (forall ctx nsid mo' mos dbuf n,
     E_nvm_mgmt_send ctx nsid mo' mos dbuf n ∈ t ->
     mo' = mo /\ mos = 1 /\ nsid = w_dev_get_nsid w mod 2 ^ 32).
Proof.
  intros Hrun Hsetup t. unfold t. clear t.
  destruct (device_run_mo _ _ _ _ Hrun) as (Hreset & Hro & Hmo).
  rewrite (main_success_run w argv device mo mode_str
             (main_args_device_run _ _ _ _ Hrun) Hsetup), trace_pair.
  assert (Hsend : send_event w (w_dev_open w device) (queue_handle w 0) mo
                  = E_nvm_mgmt_send
                      (bound_ctx w (w_dev_open w device) (queue_handle w 0))
                      (w_dev_get_nsid w mod 2 ^ 32) mo 1
                      addr_of_ruh_status sizeof_ruh_status).
  { unfold send_event, nsid_of_device.
    rewrite Z.mod_mod by done. by destruct Hmo as [-> | ->]. }
  split; [exact Hreset|]. split; [exact Hro|]. split; [|split].
  - rewrite !elem_of_app. do 3 right. left.
    unfold submit_events. rewrite elem_of_app, !elem_of_cons. auto.
  - exists (bound_ctx w (w_dev_open w device) (queue_handle w 0)).
    split; [done|]. rewrite <- Hsend.
    rewrite !elem_of_app. do 3 right. left.
    unfold submit_events. rewrite elem_of_app, !elem_of_cons. auto 10.
  - intros ctx nsid mo' mos dbuf n Hin.
    pose proof (mgmt_send_in_success w device mo mode_str
                  (E_nvm_mgmt_send ctx nsid mo' mos dbuf n) eq_refl Hin)
      as Heq.
    rewrite Hsend in Heq. by injection Heq as _ -> -> -> _ _.
Qed.

Lemma management_command_parameters_witness :
  exists ctx,
    E_nvm_mgmt_send ctx 1 0x10 1 addr_of_ruh_status 528
    ∈ trace (main w_ok argv_read_only).
Proof.
  destruct (management_command_parameters w_ok argv_read_only
              "/dev/nvme0n1" NVME_IOMS_MO_SUNGJIN_READONLY "READ-ONLY"
              argv_read_only_run (w_ok_setup _))
    as (_ & _ & _ & (ctx & _ & Hin) & _).
  exists ctx. exact Hin.
Defined.

(** ** Argument errors *)

(** C7: with fewer than 1 or more than 2 program arguments (argc below 2
    or above 3), or with a second argument that is none of --reset,
    --read-only, -h and --help, [main] returns exit status 1; everything it
    does is print to stderr (no library call is made, so the device is
    never touched); the output ends with the usage text, and for the unknown
    flag it is preceded by exactly the "Unknown option" line naming the
    flag. *)
Theorem bad_arguments_print_usage_and_fail (w : world) (argv : list string) :
  bad_arguments argv ->
  let t := trace (main w argv) in
  exit_status (main w argv) = Some 1 /\
  Forall (fun e => is_stderr e = true) t /\
  usage_line (argv !! 0%nat) ∈ t /\
  (exists pre,
     t = pre ++ usage_events (argv !! 0%nat) /\
     (argc argv <> 3 -> pre = []) /\
     (forall flag, argc argv = 3 -> argv !! 2%nat = Some flag ->
        pre = [unknown_option_event flag])).
Proof.
  intros Hbad t. unfold t. clear t.
  destruct (main_bad w argv Hbad) as (pre & Hmain & Hpre).
  rewrite Hmain. unfold exit_status. rewrite trace_pair, result_pair.
  split; [done|]. split; [|split].
  - apply Forall_app. split; [|apply usage_events_stderr].
    destruct Hpre as [[_ ->]|(flag & _ & _ & ->)]; repeat constructor.
  - apply elem_of_app. right.
    apply (list_elem_of_lookup_2 _ 1). reflexivity.
  - exists pre. split; [done|]. split.
    + intros Hc. by destruct Hpre as [[_ ->]|(flag & _ & Hc' & _)].
    + intros flag Hc Hflag.
      destruct Hpre as [[Hc' _]|(flag' & Hflag' & _ & ->)]; [done|].
      congruence.
Qed.

Lemma bad_arguments_print_usage_and_fail_witness :
  exit_status (main w_ok argv_bogus) = Some 1 /\
  trace (main w_ok argv_bogus)
  = unknown_option_event "--bogus" :: usage_events (Some "fdp_stats").
Proof.
  destruct (bad_arguments_print_usage_and_fail w_ok argv_bogus argv_bogus_bad)
    as (Hexit & _ & _ & pre & Ht & _ & Hpre).
  split; [exact Hexit|].
  rewrite Ht, (Hpre "--bogus"); reflexivity.
Defined.

(** ** A lone -h or --help *)

(** C9: with -h or --help as the only argument (argc = 2) the flag parsing
    of lines 68-83 does not run: the argument becomes the device path with
    the default mode, and in every world the run starts with the banner on
    stdout and a call of [xnvme_dev_open] on that name, so it is not the
    help path (which prints the usage text on stderr and nothing else), and
    it can only return 0 by a complete device run.  When that open fails,
    the run is the device-open failure path and the exit status is 1.  The
    same flag after a device path is the help path: usage text, exit
    status 0. *)
Theorem lone_help_flag_is_taken_as_device (w : world) (p h : string) :
  h = "-h" \/ h = "--help" ->
  main_args [p; h] = ([], Normal (h, NVME_IOMS_MO_SUNGJIN, "RESET")) /\
  (exists rest,
     trace (main w [p; h])
     = banner_events h NVME_IOMS_MO_SUNGJIN "RESET"
       ++ E_dev_open h (open_opts w) :: rest) /\
  trace (main w [p; h]) <> usage_events (Some p) /\
  (exit_status (main w [p; h]) = Some 0 -> setup_succeeds w h) /\
  (w_dev_open w h = nullptr ->
     main w [p; h]
     = (banner_events h NVME_IOMS_MO_SUNGJIN "RESET"
        ++ E_dev_open h (open_opts w) :: open_failed_events w h, Return 1) /\
     exit_status (main w [p; h]) = Some 1) /\
  (forall device,
     main w [p; device; h] = (usage_events (Some p), Return 0)).
Proof.
  intros Hh.
  pose proof (main_args_two p h) as Hargs.
  assert (Hstart : exists rest,
            main w [p; h]
            = (banner_events h NVME_IOMS_MO_SUNGJIN "RESET"
               ++ E_dev_open h (open_opts w) :: rest, result (main w [p; h]))).
  { destruct (Z.eq_dec (w_dev_open w h) nullptr) as [Hopen|Hopen].
    { eexists. by rewrite (main_open_failed_run w _ _ _ _ Hargs Hopen). }
    destruct (pool_created_or_failed w) as [Hpool|[k Hk]].
    2: { eexists. rewrite (main_init_failed_run w _ _ _ _ k Hargs Hopen Hk).
         unfold open_events. rewrite result_pair, <- app_assoc. reflexivity. }
    destruct (Z.eq_dec (w_buf_alloc w) nullptr) as [Hbuf|Hbuf].
    { eexists. rewrite (main_alloc_failed_run w _ _ _ _ Hargs Hopen Hpool Hbuf).
      unfold open_events. rewrite result_pair, <- app_assoc. reflexivity. }
    eexists.
    rewrite (main_success_run w _ _ _ _ Hargs (conj Hopen (conj Hpool Hbuf))).
    unfold open_events. rewrite result_pair, <- app_assoc. reflexivity. }
  destruct Hstart as (rest & Hstart).
  split; [exact Hargs|]. split; [|split; [|split; [|split]]].
  - exists rest. by rewrite Hstart.
  - rewrite Hstart, trace_pair. discriminate.
  - intros Hexit.
    destruct (Z.eq_dec (w_dev_open w h) nullptr) as [Hopen|Hopen].
    { by rewrite (main_open_failed_run w _ _ _ _ Hargs Hopen) in Hexit. }
    destruct (pool_created_or_failed w) as [Hpool|[k Hk]].
    2: { by rewrite (main_init_failed_run w _ _ _ _ k Hargs Hopen Hk)
           in Hexit. }
    destruct (Z.eq_dec (w_buf_alloc w) nullptr) as [Hbuf|Hbuf].
    { by rewrite (main_alloc_failed_run w _ _ _ _ Hargs Hopen Hpool Hbuf)
        in Hexit. }
    done.
  - intros Hopen.
    by rewrite (main_open_failed_run w _ _ _ _ Hargs Hopen).
  - intros device. by apply main_help.
Qed.

Lemma lone_help_flag_is_taken_as_device_witness :
  exit_status (main w_no_device ["fdp_stats"; "-h"]) = Some 1 /\
  exit_status (main w_no_device ["fdp_stats"; "--help"]) = Some 1.
Proof.
  split.
  - apply (lone_help_flag_is_taken_as_device w_no_device "fdp_stats" "-h");
      [left; reflexivity | reflexivity].
  - apply (lone_help_flag_is_taken_as_device w_no_device "fdp_stats" "--help");
      [right; reflexivity | reflexivity].
Defined.

(** ** The completion report *)

(** C10: once setup has succeeded the report of lines 171-192 is part of
    the output in every world, that is whatever the submission and the
    drain returned: the "Command Complete" banner, the RESET or UNCHANGED
    line according to the mode, and, when nruhsd > 0, the descriptor table.
    What is reported is the content of the local [ruh_status] as it is at
    line 180; main never assigns it, so when the device wrote nothing it is
    whatever the stack slot held, and the table printed is that of those
    bytes. *)
Theorem report_is_unconditional_and_reads_stack (w : world)
    (argv : list string) (device : string) (mo : Z) (mode_str : string) :
  device_run argv device mo mode_str -> setup_succeeds w device ->
  let t := trace (main w argv) in
  let r := ruh_status_at_report w in
  (exists t1 t2, t = t1 ++ report_events mo r ++ t2) /\
  Stdout (nl +:+ "=== Command Complete ===" +:+ nl) ∈ t /\
  (mo = NVME_IOMS_MO_SUNGJIN ->
     Stdout ("Counters have been RESET" +:+ nl) ∈ t) /\
  (mo <> NVME_IOMS_MO_SUNGJIN ->
     Stdout ("Counters remain UNCHANGED (read-only mode)" +:+ nl) ∈ t) /\
  (0 < nruhsd r ->
     exists t1 t2, t = t1 ++ ruh_header (nruhsd r) ++ ruh_rows r ++ t2) /\
  (w_dma w = None ->
     r = w_stack_ruh_status w /\
     (0 < nruhsd (w_stack_ruh_status w) ->
        exists t1 t2,
          t = t1 ++ ruh_header (nruhsd (w_stack_ruh_status w))
                 ++ ruh_rows (w_stack_ruh_status w) ++ t2)).
Proof.
  intros Hrun Hsetup t r. unfold t. clear t.
  rewrite (main_success_run w argv device mo mode_str
             (main_args_device_run _ _ _ _ Hrun) Hsetup), trace_pair.
  fold r.
  set (before := open_events w device mo mode_str
                 ++ pool_events (w_dev_open w device)
                 ++ [E_buf_alloc (w_dev_open w device) BUF_SIZE]
                 ++ submit_events w (w_dev_open w device) (queue_handle w 0) mo).
  set (after := cleanup_events w (w_dev_open w device) (w_buf_alloc w)
                  (created_queues w MAX_NR_QUEUE)).
  assert (Hsplit : open_events w device mo mode_str
             ++ pool_events (w_dev_open w device)
             ++ [E_buf_alloc (w_dev_open w device) BUF_SIZE]
             ++ submit_events w (w_dev_open w device) (queue_handle w 0) mo
             ++ report_events mo r ++ after
           = before ++ report_events mo r ++ after)
    by (unfold before; by rewrite <- !app_assoc).
  rewrite Hsplit. clear Hsplit.
  assert (Htable : 0 < nruhsd r ->
            exists t1 t2, before ++ report_events mo r ++ after
                          = t1 ++ ruh_header (nruhsd r) ++ ruh_rows r ++ t2).
  { intros Hpos. unfold report_events.
    destruct (Z.ltb_spec 0 (nruhsd r)) as [_|]; [|lia].
    eexists (before ++ [_; _; _]), after.
    by rewrite <- !app_assoc. }
  split; [by exists before, after|].
  split; [|split; [|split; [|split; [exact Htable|]]]].
  - rewrite !elem_of_app. right. left.
    unfold report_events. rewrite elem_of_app, !elem_of_cons. auto.
  - intros ->. rewrite !elem_of_app. right. left.
    unfold report_events. rewrite elem_of_app, !elem_of_cons. auto.
  - intros Hmo. rewrite !elem_of_app. right. left.
    unfold report_events. rewrite elem_of_app, !elem_of_cons.
    destruct (Z.eqb_spec mo NVME_IOMS_MO_SUNGJIN); [done | auto].
  - intros Hdma.
    assert (Hr : r = w_stack_ruh_status w)
      by (unfold r, ruh_status_at_report; by rewrite Hdma).
    split; [exact Hr|]. by rewrite <- Hr.
Qed.

Lemma report_is_unconditional_and_reads_stack_witness :
  w_nvm_mgmt_send w_warnings <> 0 /\ w_queue_drain w_warnings < 0 /\
  Stdout (nl +:+ "=== Command Complete ===" +:+ nl)
    ∈ trace (main w_warnings argv_read_only) /\
  exists t1 t2,
    trace (main w_warnings argv_read_only)
    = t1 ++ ruh_header 200 ++ ruh_rows (sample_ruh_status 200) ++ t2.
Proof.
  destruct (report_is_unconditional_and_reads_stack w_warnings argv_read_only
              "/dev/nvme0n1" NVME_IOMS_MO_SUNGJIN_READONLY "READ-ONLY"
              argv_read_only_run (w_warnings_setup _))
    as (_ & Hbanner & _ & _ & _ & Hstack).
  split; [discriminate|]. split; [reflexivity|]. split; [exact Hbanner|].
  apply Hstack; reflexivity.
Defined.

(** ** The library calls of a run *)

Lemma calls_app t1 t2 : calls (t1 ++ t2) = calls t1 ++ calls t2.
Proof.
  induction t1 as [|e t1 IH]; simpl; [done|].
  destruct (is_call e); simpl; by rewrite IH.
Qed.

Lemma calls_absent t : absent is_call t -> calls t = [].
Proof.
  induction 1 as [|e t He _ IH]; simpl; [done | by rewrite He].
Qed.

Lemma calls_all {A} (f : A -> event) (l : list A) :
  (forall x, is_call (f x) = true) -> calls (f <$> l) = f <$> l.
Proof.
  intros Hf. induction l as [|x l IH]; csimpl; [done|].
  by rewrite Hf, IH.
Qed.

Lemma elem_of_calls e t : e ∈ calls t <-> e ∈ t /\ is_call e = true.
Proof.
  induction t as [|x t IH]; simpl.
  - rewrite elem_of_nil. tauto.
  - destruct (is_call x) eqn:Hx; rewrite ?elem_of_cons, IH, ?elem_of_cons.
    + split; [intros [->|[? ?]]; auto | intros [[->|?] ?]; auto].
    + split; [intros [? ?]; auto | intros [[->|?] ?]; [congruence | auto]].
Qed.

Lemma count_ev_app p t1 t2 :
  count_ev p (t1 ++ t2) = (count_ev p t1 + count_ev p t2)%nat.
Proof. induction t1 as [|e t1 IH]; simpl; [done | rewrite IH; lia]. Qed.

Lemma count_ev_calls p t :
  (forall e, p e = true -> is_call e = true) ->
  count_ev p (calls t) = count_ev p t.
Proof.
  intros Hp. induction t as [|e t IH]; simpl; [done|].
  destruct (is_call e) eqn:He; simpl; rewrite IH; [done|].
  destruct (p e) eqn:Hpe; [|done]. apply Hp in Hpe. congruence.
Qed.

Lemma calls_term_events w warn (queues_ : list ptr) (m : nat) :
  (m <= length queues_)%nat ->
  calls (flat_map (term_events w warn queues_) (seqZ 0 (Z.of_nat m)))
  = E_queue_term <$> take m queues_.
Proof.
  induction m as [|m IH]; intros Hm; [done|].
  destruct (lookup_lt_is_Some_2 queues_ m) as [q Hq]; [lia|].
  rewrite Nat2Z.inj_succ, <- Z.add_1_r, seqZ_app by lia.
  rewrite (take_S_r _ _ _ Hq), flat_map_app, calls_app, fmap_app, IH by lia.
  f_equal. simpl. unfold term_events.
  replace (Z.to_nat (Z.of_nat 0 + (0 + Z.of_nat m))) with m by lia.
  rewrite Hq, app_nil_r. simpl.
  by destruct (warn && _).
Qed.

Lemma calls_all_terms w warn :
  calls (flat_map (term_events w warn (created_queues w MAX_NR_QUEUE))
           (seqZ 0 MAX_NR_QUEUE))
  = E_queue_term <$> created_queues w MAX_NR_QUEUE.
Proof.
  pose proof (calls_term_events w warn (created_queues w MAX_NR_QUEUE) 128)
    as H.
  change (Z.of_nat 128) with MAX_NR_QUEUE in H.
  rewrite H by (rewrite length_created_all; done).
  by rewrite take_ge by (rewrite length_created_all; done).
Qed.

Lemma calls_open_events w device mo mode_str :
  calls (open_events w device mo mode_str)
  = [E_dev_open device (open_opts w); E_dev_get_geo (w_dev_open w device)].
Proof. reflexivity. Qed.

Lemma calls_init_events dev n : calls (init_events dev n) = init_events dev n.
Proof. unfold init_events. by apply calls_all. Qed.

Lemma calls_submit_events w dev xqueue mo :
  calls (submit_events w dev xqueue mo)
  = [ E_queue_get_cmd_ctx xqueue; E_dev_get_nsid dev;
      send_event w dev xqueue mo; E_queue_drain xqueue ]
    ++ callback_calls w xqueue.
Proof.
  unfold submit_events. rewrite !calls_app.
  assert (H1 : calls (send_warnings w) = [])
    by (apply calls_absent; solve_absent).
  assert (H2 : calls (drain_warnings w) = [])
    by (apply calls_absent; solve_absent).
  change (E_queue_drain xqueue :: callback_events w dev xqueue
          ++ drain_warnings w)
    with ([E_queue_drain xqueue]
          ++ callback_events w dev xqueue ++ drain_warnings w).
  rewrite !calls_app, H1, H2, app_nil_r.
  assert (H3 : calls (callback_events w dev xqueue) = callback_calls w xqueue).
  { unfold callback_events, callback_calls.
    destruct (w_cpl w) as [st|]; [|done].
    rewrite async_cb_run, trace_pair.
    unfold xnvme_cmd_ctx_cpl_status, completed_ctx. cbn [ctx_cpl_status ctx_addr].
    by destruct (st =? 0). }
  rewrite H3. reflexivity.
Qed.

Lemma calls_open_failed_run w argv device mo mode_str :
  device_run argv device mo mode_str -> w_dev_open w device = nullptr ->
  calls (trace (main w argv)) = open_failed_calls w device.
Proof.
  intros Hrun Hopen.
  by rewrite (main_open_failed_run w argv device mo mode_str
                (main_args_device_run _ _ _ _ Hrun) Hopen).
Qed.

Lemma calls_init_failed_run w argv device mo mode_str k :
  device_run argv device mo mode_str ->
  device_opens w device -> init_fails_at w k ->
  calls (trace (main w argv)) = init_failed_calls w device k.
Proof.
  intros Hrun Hopen Hfail.
  rewrite (main_init_failed_run w argv device mo mode_str k
             (main_args_device_run _ _ _ _ Hrun) Hopen Hfail).
  rewrite trace_pair, !calls_app, calls_open_events, calls_init_events.
  reflexivity.
Qed.

Lemma calls_alloc_failed_run w argv device mo mode_str :
  device_run argv device mo mode_str ->
  device_opens w device -> queues_created w -> w_buf_alloc w = nullptr ->
  calls (trace (main w argv)) = alloc_failed_calls w device.
Proof.
  intros Hrun Hopen Hpool Hbuf.
  rewrite (main_alloc_failed_run w argv device mo mode_str
             (main_args_device_run _ _ _ _ Hrun) Hopen Hpool Hbuf).
  rewrite trace_pair. unfold pool_events, alloc_failed_events.
  change (E_buf_alloc (w_dev_open w device) BUF_SIZE
          :: Stderr ("Error: Failed to allocate buffer" +:+ nl)
          :: flat_map (term_events w false (created_queues w MAX_NR_QUEUE))
               (seqZ 0 MAX_NR_QUEUE)
          ++ [E_dev_close (w_dev_open w device)])
    with ([E_buf_alloc (w_dev_open w device) BUF_SIZE;
           Stderr ("Error: Failed to allocate buffer" +:+ nl)]
          ++ flat_map (term_events w false (created_queues w MAX_NR_QUEUE))
               (seqZ 0 MAX_NR_QUEUE)
          ++ [E_dev_close (w_dev_open w device)]).
  rewrite !calls_app, calls_open_events, calls_init_events, calls_all_terms.
  reflexivity.
Qed.

Lemma calls_success_run w argv device mo mode_str :
  device_run argv device mo mode_str -> setup_succeeds w device ->
  calls (trace (main w argv)) = success_calls w device mo.
Proof.
  intros Hrun Hsetup.
  rewrite (main_success_run w argv device mo mode_str
             (main_args_device_run _ _ _ _ Hrun) Hsetup).
  rewrite trace_pair. unfold pool_events, cleanup_events.
  change (E_buf_free (w_dev_open w device) (w_buf_alloc w)
          :: flat_map (term_events w true (created_queues w MAX_NR_QUEUE))
               (seqZ 0 MAX_NR_QUEUE)
          ++ [E_dev_close (w_dev_open w device); Stdout (nl +:+ "Done." +:+ nl)])
    with ([E_buf_free (w_dev_open w device) (w_buf_alloc w)]
          ++ flat_map (term_events w true (created_queues w MAX_NR_QUEUE))
               (seqZ 0 MAX_NR_QUEUE)
          ++ [E_dev_close (w_dev_open w device); Stdout (nl +:+ "Done." +:+ nl)]).
  rewrite !calls_app, calls_open_events, calls_init_events,
    calls_submit_events, calls_all_terms.
  assert (H : calls (report_events mo (ruh_status_at_report w)) = [])
    by (apply calls_absent; solve_absent).
  rewrite H. unfold success_calls. cbn [calls is_call app].
  by rewrite <- !app_assoc.
Qed.

(** The exit status of the four device paths. *)
Lemma exit_open_failed_run w argv device mo mode_str :
  device_run argv device mo mode_str -> w_dev_open w device = nullptr ->
  result (main w argv) = Return 1.
Proof.
  intros Hrun Hopen.
  by rewrite (main_open_failed_run w argv device mo mode_str
                (main_args_device_run _ _ _ _ Hrun) Hopen).
Qed.

Lemma exit_init_failed_run w argv device mo mode_str k :
  device_run argv device mo mode_str ->
  device_opens w device -> init_fails_at w k ->
  result (main w argv) = Return 1.
Proof.
  intros Hrun Hopen Hfail.
  by rewrite (main_init_failed_run w argv device mo mode_str k
                (main_args_device_run _ _ _ _ Hrun) Hopen Hfail).
Qed.

Lemma exit_alloc_failed_run w argv device mo mode_str :
  device_run argv device mo mode_str ->
  device_opens w device -> queues_created w -> w_buf_alloc w = nullptr ->
  result (main w argv) = Return 1.
Proof.
  intros Hrun Hopen Hpool Hbuf.
  by rewrite (main_alloc_failed_run w argv device mo mode_str
                (main_args_device_run _ _ _ _ Hrun) Hopen Hpool Hbuf).
Qed.

Lemma exit_success_run w argv device mo mode_str :
  device_run argv device mo mode_str -> setup_succeeds w device ->
  result (main w argv) = Return 0.
Proof.
  intros Hrun Hsetup.
  by rewrite (main_success_run w argv device mo mode_str
                (main_args_device_run _ _ _ _ Hrun) Hsetup).
Qed.











(** ** Properties of every run *)

(** The outcome of a device run, by the step of the setup that fails. *)
Lemma device_run_outcome w argv device mo mode_str :
  device_run argv device mo mode_str ->
  (w_dev_open w device = nullptr /\ result (main w argv) = Return 1
   /\ calls (trace (main w argv)) = open_failed_calls w device)
  \/ (device_opens w device /\ (exists k, init_fails_at w k
        /\ calls (trace (main w argv)) = init_failed_calls w device k)
      /\ result (main w argv) = Return 1)
  \/ (device_opens w device /\ queues_created w /\ w_buf_alloc w = nullptr
      /\ result (main w argv) = Return 1
      /\ calls (trace (main w argv)) = alloc_failed_calls w device)
  \/ (setup_succeeds w device /\ result (main w argv) = Return 0
      /\ calls (trace (main w argv)) = success_calls w device mo).
Proof.
  intros Hrun.
  destruct (Z.eq_dec (w_dev_open w device) nullptr) as [Hopen|Hopen].
  { left. split; [done|]. split.
    - by apply (exit_open_failed_run w argv device mo mode_str).
    - by apply (calls_open_failed_run w argv device mo mode_str). }
  destruct (pool_created_or_failed w) as [Hpool|[k Hk]].
  2: { right. left. split; [done|]. split.
       - exists k. split; [done|].
         by apply (calls_init_failed_run w argv device mo mode_str).
       - by apply (exit_init_failed_run w argv device mo mode_str k). }
  destruct (Z.eq_dec (w_buf_alloc w) nullptr) as [Hbuf|Hbuf].
  { right. right. left. repeat (split; [done|]). split.
    - by apply (exit_alloc_failed_run w argv device mo mode_str).
    - by apply (calls_alloc_failed_run w argv device mo mode_str). }
  right. right. right. split; [done|]. split.
  - by apply (exit_success_run w argv device mo mode_str).
  - by apply (calls_success_run w argv device mo mode_str).
Qed.


(** X6: with -h or --help as third argument [main] prints the usage text
    on stderr and returns 0 without a single library call, whatever the
    second argument is and in every world. *)
Theorem help_prints_usage_and_returns_0 (w : world) (p device flag : string) :
  flag = "-h" \/ flag = "--help" ->
  main w [p; device; flag] = (usage_events (Some p), Return 0) /\
  calls (trace (main w [p; device; flag])) = [] /\
  Forall (fun e => is_stderr e = true) (trace (main w [p; device; flag])) /\
  usage_line (Some p) ∈ trace (main w [p; device; flag]).
Proof.
  intros Hflag. rewrite (main_help w p device flag Hflag), trace_pair.
  split; [done|]. split; [reflexivity|].
  split; [apply usage_events_stderr|].
  apply (list_elem_of_lookup_2 _ 1). reflexivity.
Qed.

Lemma help_prints_usage_and_returns_0_witness :
  exit_status (main w_no_device ["fdp_stats"; "/dev/nvme0n1"; "--help"])
  = Some 0.
Proof.
  destruct (help_prints_usage_and_returns_0 w_no_device "fdp_stats"
              "/dev/nvme0n1" "--help" (or_intror eq_refl)) as (Hmain & _).
  by rewrite Hmain.
Defined.

(** X7: --reset is the default: a run with the flag --reset is the same
    run, event for event and with the same exit status, as the run without
    a flag. *)
Theorem reset_flag_is_the_default (w : world) (p device : string) :
  main w [p; device; "--reset"] = main w [p; device].
Proof.
  unfold main.
  by rewrite (main_args_device_run _ _ _ _ (run_reset p device)),
    (main_args_device_run _ _ _ _ (run_default p device)).
Qed.



Lemma count_ev_fmap_none {A} p (f : A -> event) (l : list A) :
  (forall x, p (f x) = false) -> count_ev p (f <$> l) = O.
Proof. intros H. by apply count_ev_none, absent_fmap. Qed.

Lemma absent_callback_calls p w xqueue :
  (forall c o, p (E_cmd_ctx_pr c o) = false) ->
  (forall q c, p (E_queue_put_cmd_ctx q c) = false) ->
  absent p (callback_calls w xqueue).
Proof.
  intros Hpr Hput. unfold callback_calls.
  destruct (w_cpl w) as [st|]; [|constructor].
  destruct (st =? 0); repeat constructor; auto.
Qed.

(** X9: the device is closed exactly when it was opened, once, and as
    the last library call of the run.  On a device run whose open fails
    [xnvme_dev_close] is never called; on one whose open succeeds, on each
    of the three paths that follow, the trace has exactly one
    [xnvme_dev_close], on the handle the open returned, and no library call
    comes after it.  A run that is not a device run makes no library call
    at all. *)
Theorem device_closed_once_and_last (w : world) (argv : list string) :
  (forall device mo mode_str,
     device_run argv device mo mode_str ->
     (w_dev_open w device = nullptr ->
      absent is_dev_close (trace (main w argv))) /\
     (w_dev_open w device <> nullptr ->
      last (calls (trace (main w argv)))
      = Some (E_dev_close (w_dev_open w device)) /\
      count_ev is_dev_close (trace (main w argv)) = 1%nat)) /\
  ((forall device mo mode_str, ~ device_run argv device mo mode_str) ->
   calls (trace (main w argv)) = []).
Proof.
  split.
  - intros device mo ms Hrun.
    assert (Hcount : count_ev is_dev_close (calls (trace (main w argv)))
                     = count_ev is_dev_close (trace (main w argv)))
      by (apply count_ev_calls; by intros []).
    destruct (device_run_outcome w argv device mo ms Hrun)
      as [(Hnull & _ & H)|[(Hopen & (k & _ & H) & _)
         |[(Hopen & _ & _ & _ & H)|((Hopen & _) & _ & H)]]].
    + split; [|done]. intros _.
      rewrite (main_open_failed_run w argv device mo ms
                 (main_args_device_run _ _ _ _ Hrun) Hnull), trace_pair.
      solve_absent.
    + split; [done|]. intros _. rewrite <- Hcount, H. clear Hcount H.
      unfold init_failed_calls, init_events. split.
      * by rewrite !app_assoc, last_snoc.
      * rewrite !count_ev_app, (count_ev_fmap_none is_dev_close) by done.
        reflexivity.
    + split; [done|]. intros _. rewrite <- Hcount, H. clear Hcount H.
      unfold alloc_failed_calls, init_events. split.
      * by rewrite !app_assoc, last_snoc.
      * rewrite !count_ev_app, !(count_ev_fmap_none is_dev_close) by done.
        reflexivity.
    + split; [done|]. intros _. rewrite <- Hcount, H. clear Hcount H.
      unfold success_calls, init_events. split.
      * by rewrite !app_assoc, last_snoc.
      * rewrite !count_ev_app, !(count_ev_fmap_none is_dev_close) by done.
        rewrite (count_ev_none is_dev_close (callback_calls _ _))
          by (by apply absent_callback_calls).
        reflexivity.
  - intros Hnot.
    destruct (argv_cases argv)
      as [Hbad|[(p & d & flag & -> & Hflag)|(device & mo & ms & Hrun)]].
    + destruct (main_bad w argv Hbad) as (t & -> & Ht). rewrite trace_pair.
      apply calls_absent, Forall_app. split.
      * destruct Ht as [[_ ->]|(flag & _ & _ & ->)]; repeat constructor.
      * by apply absent_usage.
    + rewrite (main_help w p d flag Hflag), trace_pair.
      apply calls_absent. by apply absent_usage.
    + by destruct (Hnot device mo ms).
Qed.

Lemma device_closed_once_and_last_witness :
  absent is_dev_close (trace (main w_no_device argv_default)) /\
  count_ev is_dev_close (trace (main w_queue_1_fails argv_default)) = 1%nat /\
  last (calls (trace (main w_no_buffer argv_default)))
  = Some (E_dev_close 1000).
Proof.
  pose proof (proj1 (device_closed_once_and_last w_no_device argv_default)
                "/dev/nvme0n1" NVME_IOMS_MO_SUNGJIN "RESET" argv_default_run)
    as [H1 _].
  pose proof (proj1 (device_closed_once_and_last w_queue_1_fails argv_default)
                "/dev/nvme0n1" NVME_IOMS_MO_SUNGJIN "RESET" argv_default_run)
    as [_ H2].
  pose proof (proj1 (device_closed_once_and_last w_no_buffer argv_default)
                "/dev/nvme0n1" NVME_IOMS_MO_SUNGJIN "RESET" argv_default_run)
    as [_ H3].
  split; [apply H1; reflexivity|].
  split; [apply H2; discriminate | apply H3; discriminate].
Defined.

(** ** The command context *)

(** X10: on a run whose setup succeeds, one context is taken, from the
    first queue created, bound to [async_cb] with that queue as callback
    argument and the opened device, and submitted once; that queue is
    drained once, whether or not the submission was accepted.  The context
    goes back to a queue only through the callback: if the drain reports
    the completion it is put back exactly once, into the queue it was taken
    from; if no completion is reported it is never put back. *)
Theorem context_taken_once_returned_on_completion (w : world)
    (argv : list string) (device : string) (mo : Z) (mode_str : string) :
  device_run argv device mo mode_str -> setup_succeeds w device ->
  let t := trace (main w argv) in
  let q0 := queue_handle w 0 in
  let c := ctx_addr (w_queue_get_cmd_ctx w q0) in
  count_ev is_get_cmd_ctx t = 1%nat /\ E_queue_get_cmd_ctx q0 ∈ t /\
  count_ev is_mgmt_send t = 1%nat /\
  (exists ctx nsid,
     E_nvm_mgmt_send ctx nsid mo 1 addr_of_ruh_status sizeof_ruh_status ∈ t /\
     ctx_addr ctx = c /\ ctx_cb ctx = cb_async_cb /\ ctx_cb_arg ctx = q0 /\
     ctx_dev ctx = w_dev_open w device) /\
  count_ev is_queue_drain t = 1%nat /\ E_queue_drain q0 ∈ t /\
  count_ev is_put_cmd_ctx t
  = match w_cpl w with Some _ => 1%nat | None => 0%nat end /\
  (forall q c', E_queue_put_cmd_ctx q c' ∈ t -> q = q0 /\ c' = c).
Proof.
  intros Hrun Hsetup t q0 c.
  pose proof (calls_success_run w argv device mo mode_str Hrun Hsetup) as Hc.
  fold t in Hc.
  assert (Hcount : forall p, (forall e, p e = true -> is_call e = true) ->
            count_ev p t = count_ev p (success_calls w device mo))
    by (intros p Hp; by rewrite <- Hc, count_ev_calls).
  assert (Hin : forall e, e ∈ success_calls w device mo -> e ∈ t).
  { intros e He. rewrite <- Hc in He. by apply elem_of_calls in He as [He _]. }
  assert (Hmo : mo mod 2 ^ 8 = mo).
  { destruct (device_run_mo _ _ _ _ Hrun) as (_ & _ & [-> | ->]); reflexivity. }
  assert (Hsend : send_event w (w_dev_open w device) q0 mo
                  = E_nvm_mgmt_send (bound_ctx w (w_dev_open w device) q0)
                      (nsid_of_device w mod 2 ^ 32) mo 1
                      addr_of_ruh_status sizeof_ruh_status).
  { unfold send_event. by rewrite Hmo. }
  split; [|split; [|split; [|split; [|split; [|split; [|split]]]]]].
  - rewrite Hcount by (by intros []).
    unfold success_calls, init_events.
    rewrite !count_ev_app, !(count_ev_fmap_none is_get_cmd_ctx) by done.
    rewrite (count_ev_none is_get_cmd_ctx (callback_calls _ _))
      by (by apply absent_callback_calls).
    fold q0. rewrite Hsend. reflexivity.
  - apply Hin. unfold success_calls. fold q0.
    rewrite !elem_of_app, !elem_of_cons. auto 10.
  - rewrite Hcount by (by intros []).
    unfold success_calls, init_events.
    rewrite !count_ev_app, !(count_ev_fmap_none is_mgmt_send) by done.
    rewrite (count_ev_none is_mgmt_send (callback_calls _ _))
      by (by apply absent_callback_calls).
    fold q0. rewrite Hsend. reflexivity.
  - exists (bound_ctx w (w_dev_open w device) q0),
      (nsid_of_device w mod 2 ^ 32).
    split; [|done]. rewrite <- Hsend. apply Hin.
    unfold success_calls. fold q0.
    rewrite !elem_of_app, !elem_of_cons. auto 10.
  - rewrite Hcount by (by intros []).
    unfold success_calls, init_events.
    rewrite !count_ev_app, !(count_ev_fmap_none is_queue_drain) by done.
    rewrite (count_ev_none is_queue_drain (callback_calls _ _))
      by (by apply absent_callback_calls).
    fold q0. rewrite Hsend. reflexivity.
  - apply Hin. unfold success_calls. fold q0.
    rewrite !elem_of_app, !elem_of_cons. auto 10.
  - rewrite Hcount by (by intros []).
    unfold success_calls, init_events.
    rewrite !count_ev_app, !(count_ev_fmap_none is_put_cmd_ctx) by done.
    fold q0. rewrite Hsend. unfold callback_calls.
    destruct (w_cpl w) as [st|]; [|reflexivity].
    by destruct (st =? 0).
  - intros q c' Hput.
    assert (Hput' : E_queue_put_cmd_ctx q c' ∈ success_calls w device mo)
      by (rewrite <- Hc; by apply elem_of_calls).
    unfold success_calls, init_events in Hput'. fold q0 in Hput'.
    rewrite Hsend in Hput'.
    apply (elem_of_app_absent_l is_put_cmd_ctx) in Hput';
      [|done|solve_absent].
    apply (elem_of_app_absent_l is_put_cmd_ctx) in Hput';
      [|done|solve_absent].
    apply (elem_of_app_absent_l is_put_cmd_ctx) in Hput';
      [|done|solve_absent].
    rewrite app_assoc in Hput'.
    apply (elem_of_app_absent_r is_put_cmd_ctx) in Hput';
      [|done|solve_absent].
    apply (elem_of_app_absent_r is_put_cmd_ctx) in Hput';
      [|done|solve_absent].
    unfold callback_calls in Hput'.
    destruct (w_cpl w) as [st|]; [|by apply elem_of_nil in Hput'].
    apply elem_of_app in Hput' as [Hput'|Hput'].
    + destruct (st =? 0); [by apply elem_of_nil in Hput'|].
      by apply list_elem_of_singleton in Hput'.
    + apply list_elem_of_singleton in Hput'. by injection Hput' as -> ->.
Qed.

Lemma context_taken_once_returned_on_completion_witness :
  count_ev is_put_cmd_ctx (trace (main w_ok argv_default)) = 1%nat /\
  count_ev is_put_cmd_ctx (trace (main w_warnings argv_default)) = 0%nat /\
  count_ev is_queue_drain (trace (main w_warnings argv_default)) = 1%nat.
Proof.
  destruct (context_taken_once_returned_on_completion w_ok argv_default
              "/dev/nvme0n1" NVME_IOMS_MO_SUNGJIN "RESET" argv_default_run
              (w_ok_setup _)) as (_ & _ & _ & _ & _ & _ & H1 & _).
  destruct (context_taken_once_returned_on_completion w_warnings argv_default
              "/dev/nvme0n1" NVME_IOMS_MO_SUNGJIN "RESET" argv_default_run
              (w_warnings_setup _)) as (_ & _ & _ & _ & H3 & _ & H2 & _).
  split; [exact H1|]. split; [exact H2 | exact H3].
Defined.

(** ** What goes to stderr *)

Lemma no_stderr_in_clean_terms w (queues_ : list ptr) (l : list Z) :
  (forall i, i ∈ l -> w_queue_term w i = 0) ->
  absent is_stderr (flat_map (term_events w true queues_) l).
Proof.
  induction l as [|i l IH]; intros Hok; simpl; [constructor|].
  apply Forall_app. split.
  - unfold term_events. destruct (queues_ !! Z.to_nat i); [|constructor].
    rewrite (Hok i) by apply list_elem_of_here. repeat constructor.
  - apply IH. intros j Hj. apply Hok. by apply list_elem_of_further.
Qed.

(** X11: no failure is silent, and stderr is silent without failure.
    Every run that returns 1 has printed at least one line on stderr.  A
    run whose setup succeeds prints nothing on stderr exactly when the
    submission returns 0, the drain returns no negative value and all 128
    terminations return 0. *)
Theorem stderr_iff_something_failed (w : world) (argv : list string) :
  (exit_status (main w argv) = Some 1 ->
   exists s, Stderr s ∈ trace (main w argv)) /\
  (forall device mo mode_str,
     device_run argv device mo mode_str -> setup_succeeds w device ->
     (absent is_stderr (trace (main w argv)) <-> no_late_failure w)).
Proof.
  split.
  - intros Hexit.
    destruct (argv_cases argv)
      as [Hbad|[(p & d & flag & -> & Hflag)|(device & mo & ms & Hrun)]].
    + destruct (main_bad w argv Hbad) as (t & Hmain & _).
      eexists. rewrite Hmain, trace_pair. apply elem_of_app. right.
      apply (list_elem_of_lookup_2 _ 0). reflexivity.
    + by rewrite (main_help w p d flag Hflag) in Hexit.
    + pose proof (main_args_device_run _ _ _ _ Hrun) as Hargs.
      destruct (Z.eq_dec (w_dev_open w device) nullptr) as [Hopen|Hopen].
      { eexists. rewrite (main_open_failed_run w _ _ _ _ Hargs Hopen), trace_pair.
        apply elem_of_app. right. apply list_elem_of_further.
        apply list_elem_of_here. }
      destruct (pool_created_or_failed w) as [Hpool|[k Hk]].
      2: { eexists.
           rewrite (main_init_failed_run w _ _ _ _ k Hargs Hopen Hk), trace_pair.
           rewrite !elem_of_app. do 2 right. apply list_elem_of_here. }
      destruct (Z.eq_dec (w_buf_alloc w) nullptr) as [Hbuf|Hbuf].
      { eexists.
        rewrite (main_alloc_failed_run w _ _ _ _ Hargs Hopen Hpool Hbuf),
          trace_pair.
        rewrite !elem_of_app. do 2 right. apply list_elem_of_further.
        apply list_elem_of_here. }
      by rewrite (main_success_run w _ _ _ _ Hargs
                    (conj Hopen (conj Hpool Hbuf))) in Hexit.
  - intros device mo ms Hrun Hsetup. split.
    + intros Habs.
      destruct (success_warnings w argv device mo ms Hrun Hsetup)
        as (Hsend & Hdrain & Hterm).
      split; [|split].
      * destruct (Z.eq_dec (w_nvm_mgmt_send w) 0) as [|Hne]; [done|].
        by destruct (absent_not_elem is_stderr _ (send_warning_event w) Habs
                       eq_refl (Hsend Hne)).
      * destruct (Z.le_gt_cases 0 (w_queue_drain w)) as [|Hlt]; [done|].
        by destruct (absent_not_elem is_stderr _ (drain_warning_event w) Habs
                       eq_refl (Hdrain Hlt)).
      * intros i Hi.
        destruct (Z.eq_dec (w_queue_term w i) 0) as [|Hne]; [done|].
        by destruct (absent_not_elem is_stderr _ (term_warning i) Habs
                       eq_refl (Hterm i Hi Hne)).
    + intros (Hsend & Hdrain & Hterm).
      rewrite (main_success_run w argv device mo ms
                 (main_args_device_run _ _ _ _ Hrun) Hsetup), trace_pair.
      assert (Hs : (w_nvm_mgmt_send w =? 0) = true) by (by apply Z.eqb_eq).
      assert (Hd : (w_queue_drain w <? 0) = false) by (apply Z.ltb_ge; lia).
      unfold submit_events, send_warnings, drain_warnings, cleanup_events.
      rewrite Hs, Hd.
      repeat apply absent_app; try solve [solve_absent].
      apply absent_cons; [done|]. apply absent_app; [|solve_absent].
      apply no_stderr_in_clean_terms.
      intros i Hi. apply Hterm. apply elem_of_seqZ in Hi.
      unfold MAX_NR_QUEUE in *. lia.
Qed.

Lemma stderr_iff_something_failed_witness :
  (exists s, Stderr s ∈ trace (main w_no_buffer argv_default)) /\
  absent is_stderr (trace (main w_ok argv_read_only)).
Proof.
  split.
  - apply (proj1 (stderr_iff_something_failed w_no_buffer argv_default)).
    reflexivity.
  - apply (proj2 (stderr_iff_something_failed w_ok argv_read_only)
             "/dev/nvme0n1" NVME_IOMS_MO_SUNGJIN_READONLY "READ-ONLY"
             argv_read_only_run (w_ok_setup _)).
    split; [reflexivity|]. split; [discriminate|]. reflexivity.
Defined.

(** ** The count line of the descriptor table *)

(** X12: the count printed above the table is not clamped.  When the
    device reports more than 16 descriptors, the line "Number of RUH Status
    Descriptors" shows the reported count itself, and it is followed by
    exactly 16 rows, one for each slot: the number announced is not the
    number of rows printed. *)
Theorem count_line_is_not_clamped (r : nvme_fdp_ruh_status) :
  16 < nruhsd r ->
  trace (print_ruh_status r)
  = ruh_header (nruhsd r)
    ++ ((fun d => Stdout (ruh_row d)) <$> vec_to_list (ruhss r)) /\
  ruh_header (nruhsd r) !! 1%nat
  = Some (Stdout ("Number of RUH Status Descriptors: "
                  +:+ fmt_d (nruhsd r) +:+ nl)) /\
  length ((fun d => Stdout (ruh_row d)) <$> vec_to_list (ruhss r)) = 16%nat /\
  fmt_d (nruhsd r) <> fmt_d 16.
Proof.
  intros Hn. rewrite print_ruh_status_run, trace_pair.
  destruct (Z.ltb_spec 0 (nruhsd r)) as [_|]; [|lia].
  split; [|split; [reflexivity|split]].
  - f_equal. unfold ruh_rows, RUHSS_LEN. f_equal.
    apply take_ge. rewrite length_vec_to_list. lia.
  - by rewrite length_fmap, length_vec_to_list.
  - unfold fmt_d. intros Heq. apply (inj pretty) in Heq. lia.
Qed.

Lemma count_line_is_not_clamped_witness :
  length (trace (print_ruh_status (sample_ruh_status 200))) = 20%nat.
Proof.
  destruct (count_line_is_not_clamped (sample_ruh_status 200))
    as (Ht & _); [reflexivity|].
  rewrite Ht. reflexivity.
Defined.
